(** * BTC short-straddle monitor: premium tracking and risk classification

    A shallow embedding of the decision logic of [src/app.py]: the per-leg
    lookup and premium extraction, the capped history kept in the Streamlit
    session state, and the trend and risk classifiers, followed by the
    properties the specification states about them.

    Numbers are Python floats, that is IEEE-754 binary64 values with
    round-to-nearest-even: Rocq's primitive [float] has exactly this
    arithmetic, so every concrete evaluation below computes what CPython
    computes.  What Python adds on top of IEEE (a division by zero raises
    instead of producing an infinity or a NaN) is written out in
    [py_truediv] and [py_truediv_int].

    The history is a Python list, a mutable object shared between the session
    state and the functions it is passed to; the script fragments that touch
    it are state transformers over a heap of list objects. *)

From Stdlib Require Import ZArith Floats Uint63 Lia.
From stdpp Require Import base option list gmap strings.

(** ** Python runtime: exceptions and results *)

(** The exceptions the modelled code can raise. *)
Inductive exn : Type :=
| ZeroDivisionError   (* [a / b] with [b == 0] *)
| IndexError          (* [l[i]] out of range *)
| ValueError          (* [min] or [max] of an empty sequence *)
| TypeError.          (* [len] or iteration of something that is no list *)

(** The outcome of evaluating an expression: a value, or a raised exception. *)
Inductive result (A : Type) : Type :=
| Ok (a : A)
| Raise (e : exn).
Arguments Ok {A} a.
Arguments Raise {A} e.

#[global] Instance result_fmap : FMap result := fun A B f r =>
  match r with
  | Ok a => Ok (f a)
  | Raise e => Raise e
  end.

(** ** Python runtime: numbers *)

(** [float(n)] for an [int] that is a list length (below 2^63, and far
    below 2^53 where the conversion is exact). *)
Definition float_of_int (n : Z) : float := PrimFloat.of_uint63 (Uint63.of_Z n).

(** [a / b] on floats: CPython raises when the divisor compares equal to
    zero (either sign), whatever the dividend; otherwise the IEEE quotient. *)
Definition py_truediv (a b : float) : result float :=
  if (b =? 0)%float then Raise ZeroDivisionError else Ok (a / b)%float.

(** [a / n] for a float [a] and an int [n]: the int is converted to a float
    first, and that float is zero exactly when [n] is. *)
Definition py_truediv_int (a : float) (n : Z) : result float :=
  if (n =? 0)%Z then Raise ZeroDivisionError else Ok (a / float_of_int n)%float.

(** The builtin [sum] over a list of floats is the one operation of the app
    whose rounding depends on the interpreter: up to CPython 3.11 it adds the
    items from left to right starting from the int [0]; from 3.12 on it adds
    them with Neumaier's compensation.  The classifiers are stated over
    either one. *)
Class PyRuntime : Type := { py_sum : list float -> float }.

(** [sum(l)], CPython <= 3.11: [((0 + x1) + x2) + ...]. *)
Definition sum_left_to_right (l : list float) : float :=
  fold_left PrimFloat.add l 0%float.

(** One step of the compensated loop: the running total and the running
    compensation after adding [x]. *)
Definition neumaier_step (acc : float * float) (x : float) : float * float :=
  let '(f_result, c) := acc in
  let t := (f_result + x)%float in
  if (PrimFloat.abs x <=? PrimFloat.abs f_result)%float
  then (t, (c + ((f_result - t) + x))%float)
  else (t, (c + ((x - t) + f_result))%float).

(** A float that is neither an infinity nor a NaN. *)
Definition isfinite (x : float) : bool :=
  negb (PrimFloat.is_nan x) && negb (PrimFloat.is_infinity x).

(** [sum(l)], CPython >= 3.12: the first item is added to the int [0], the
    others go through the compensated loop, and the compensation is added at
    the end when it is nonzero and finite. *)
Definition sum_compensated (l : list float) : float :=
  match l with
  | [] => 0%float
  | x1 :: rest =>
      let '(f_result, c) := fold_left neumaier_step rest ((0 + x1)%float, 0%float) in
      if negb (c =? 0)%float && isfinite c then (f_result + c)%float else f_result
  end.

Definition cpython_311 : PyRuntime := {| py_sum := sum_left_to_right |}.
Definition cpython_312 : PyRuntime := {| py_sum := sum_compensated |}.

(** [min(l)]: the first item, replaced by each later item that compares
    smaller. *)
Definition py_min (l : list float) : result float :=
  match l with
  | [] => Raise ValueError
  | x :: rest => Ok (fold_left (fun m y => if (y <? m)%float then y else m) rest x)
  end.

(** [max(l)]: the first item, replaced by each later item that compares
    greater. *)
Definition py_max (l : list float) : result float :=
  match l with
  | [] => Raise ValueError
  | x :: rest => Ok (fold_left (fun m y => if (m <? y)%float then y else m) rest x)
  end.

(** ** Python runtime: lists *)

Section PyList.
Context {A : Type}.

(** [len(l)] *)
Definition py_len (l : list A) : Z := Z.of_nat (length l).

(** A slice bound brought into [0 .. len(l)]: a negative bound counts from
    the end, and what still falls outside is clamped. *)
Definition slice_bound (l : list A) (i : Z) : nat :=
  let i := if (i <? 0)%Z then (i + py_len l)%Z else i in
  Z.to_nat (Z.min (Z.max i 0) (py_len l)).

(** [l[i:]] *)
Definition py_slice_from (l : list A) (i : Z) : list A := drop (slice_bound l i) l.

(** [l[:i]] *)
Definition py_slice_to (l : list A) (i : Z) : list A := take (slice_bound l i) l.

(** [l[i]] *)
Definition py_index (l : list A) (i : Z) : result A :=
  let j := if (i <? 0)%Z then (i + py_len l)%Z else i in
  if (j <? 0)%Z then Raise IndexError
  else match l !! Z.to_nat j with
       | Some a => Ok a
       | None => Raise IndexError
       end.
End PyList.

(** ** Data model *)

(** Wall-clock instants ([datetime.now()]), as seconds. *)
Definition datetime : Type := Z.

(** One record of the option chain, a JSON object of the tickers endpoint.
    A field is [None] when the key is absent; a present value is held as the
    number [float(...)] reads from it. *)
Record ticker : Type := Ticker {
  strike_price : option float;
  symbol : option string;
  mark_price : option float;
  spot_price : option float;
}.

(** The dict returned by [calculate_straddle_premiums]. *)
Module Premiums.
Record t : Type := Make {
  straddle_a : float;
  straddle_b : float;
  combined : float;
  spot : option float;
  call_1 : float;
  put_1 : float;
  call_2 : float;
  put_2 : float;
}.
End Premiums.

(** The dict appended to [premium_history] on each successful poll. *)
Module Entry.
Record t : Type := Make {
  timestamp : datetime;
  combined : float;
  straddle_a : float;
  straddle_b : float;
  spot : option float;
}.
End Entry.

(** The labels of [determine_trend]: ["Insufficient Data"], ["Rising"],
    ["Falling"] and ["Flat"] (the last three with an arrow glyph). *)
Inductive TrendLabel : Type := InsufficientData | Rising | Falling | Flat.

(** The first component of [determine_risk_status]: ["Safe"], ["Neutral"],
    ["Risky"]. *)
Inductive RiskLabel : Type := Safe | Neutral | Risky.

(** The second component, a coloured circle. *)
Inductive RiskIcon : Type := WhiteCircle | GreenCircle | RedCircle | YellowCircle.

(** Constants of the app.  The source writes the ints [75000] and [80000];
    they are only ever compared with floats, and an int of this size compares
    with a float as the float of the same value does. *)
Definition STRIKE_1 : float := 75000%float.
Definition STRIKE_2 : float := 80000%float.

(** ** Premium extraction *)

(** The test of the loop in [get_option_price]:
    [float(option.get('strike_price', 0)) == strike and
     option.get('symbol', '').startswith(option_type)]. *)
Definition leg_matches (strike : float) (option_type : string) (option : ticker) : bool :=
  (default 0%float (strike_price option) =? strike)%float
  && String.prefix option_type (default EmptyString (symbol option)).

(** The [for] loop of [get_option_price]: the first matching record decides. *)
Fixpoint get_option_price_loop (option_chain : list ticker) (strike : float)
    (option_type : string) : option float :=
  match option_chain with
  | [] => None
  | option :: rest =>
      if leg_matches strike option_type option
      then Some (default 0%float (mark_price option))
      else get_option_price_loop rest strike option_type
  end.

Definition get_option_price (option_chain : list ticker) (strike : float)
    (option_type : string) : option float :=
  match option_chain with
  | [] => None
  | _ => get_option_price_loop option_chain strike option_type
  end.

Definition get_spot_price (option_chain : list ticker) : option float :=
  match option_chain with
  | option :: _ => Some (default 0%float (spot_price option))
  | [] => None
  end.

Definition calculate_straddle_premiums (option_chain : list ticker)
    (strike_1 strike_2 : float) : option Premiums.t :=
  let call_1 := get_option_price option_chain strike_1 "C" in
  let put_1 := get_option_price option_chain strike_1 "P" in
  let call_2 := get_option_price option_chain strike_2 "C" in
  let put_2 := get_option_price option_chain strike_2 "P" in
  let spot := get_spot_price option_chain in
  match call_1, put_1, call_2, put_2 with
  | Some call_1, Some put_1, Some call_2, Some put_2 =>
      let straddle_a := (call_1 + put_1)%float in
      let straddle_b := (call_2 + put_2)%float in
      let combined := (straddle_a + straddle_b)%float in
      Some {| Premiums.straddle_a := straddle_a;
              Premiums.straddle_b := straddle_b;
              Premiums.combined := combined;
              Premiums.spot := spot;
              Premiums.call_1 := call_1;
              Premiums.put_1 := put_1;
              Premiums.call_2 := call_2;
              Premiums.put_2 := put_2 |}
  | _, _, _, _ => None
  end.

(** ** The session: list objects and the Streamlit session state *)

(** [premium_history] is a Python list, a mutable object that [main] appends
    to in place and hands to the classifiers by reference.  List objects live
    in a heap indexed by their identity. *)
Definition loc : Type := positive.

(** [st.session_state] *)
Record session_state : Type := SessionState {
  premium_history : loc;
  last_update : option datetime;
}.

Record world : Type := World {
  heap : gmap loc (list Entry.t);
  session : session_state;
}.

(** A script fragment: it reads and updates the world and ends in a value or
    in a raised exception; what it changed before raising stays changed. *)
Definition Script (A : Type) : Type := world -> result A * world.

#[global] Instance script_ret : MRet Script := fun A a w => (Ok a, w).
#[global] Instance script_bind : MBind Script := fun A B k m w =>
  match m w with
  | (Ok a, w') => k a w'
  | (Raise e, w') => (Raise e, w')
  end.

(** An expression that touches no object. *)
Definition lift {A : Type} (r : result A) : Script A := fun w => (r, w).

(** The items of the list object [l]. *)
Definition load (l : loc) : Script (list Entry.t) := fun w =>
  match heap w !! l with
  | Some items => (Ok items, w)
  | None => (Raise TypeError, w)
  end.

(** [len(l)] *)
Definition obj_len (l : loc) : Script Z :=
  items ← load l; mret (py_len items).

(** [l[i:]]: the items of the new list. *)
Definition obj_slice_from (l : loc) (i : Z) : Script (list Entry.t) :=
  items ← load l; mret (py_slice_from items i).

(** [l.append(e)]: the object changes in place. *)
Definition obj_append (l : loc) (e : Entry.t) : Script unit := fun w =>
  match heap w !! l with
  | Some items =>
      (Ok (), {| heap := <[l := items ++ [e]]> (heap w); session := session w |})
  | None => (Raise TypeError, w)
  end.

(** A list display or a slice bound to a name: a new object. *)
Definition new_list (items : list Entry.t) : Script loc := fun w =>
  let l := fresh (dom (heap w)) in
  (Ok l, {| heap := <[l := items]> (heap w); session := session w |}).

Definition get_premium_history : Script loc := fun w =>
  (Ok (premium_history (session w)), w).

Definition set_premium_history (l : loc) : Script unit := fun w =>
  (Ok (), {| heap := heap w;
             session := {| premium_history := l;
                           last_update := last_update (session w) |} |}).

Definition set_last_update (t : option datetime) : Script unit := fun w =>
  (Ok (), {| heap := heap w;
             session := {| premium_history := premium_history (session w);
                           last_update := t |} |}).

(** The session state of a fresh session (lines 23-26): an empty history
    and no update yet. *)
Definition initial_world : world :=
  {| heap := {[ 1%positive := [] ]};
     session := {| premium_history := 1%positive; last_update := None |} |}.

(** ** Trend and risk classifiers *)

Definition determine_trend `{PyRuntime} (history : loc) (window : Z) : Script TrendLabel :=
  n ← obj_len history;
  if (n <? window)%Z then mret InsufficientData else
  tail ← obj_slice_from history (- window);
  let recent := Entry.combined <$> tail in
  let half := (py_len recent `div` 2)%Z in
  first_half_avg ← lift (py_truediv_int (py_sum (py_slice_to recent half)) half);
  second_half_avg ← lift (py_truediv_int (py_sum (py_slice_from recent half))
                                         (py_len recent - half));
  ratio ← lift (py_truediv (second_half_avg - first_half_avg)%float first_half_avg);
  let change_pct := (ratio * 100)%float in
  if (1 <? change_pct)%float then mret Rising
  else if (change_pct <? -1)%float then mret Falling
  else mret Flat.

Definition determine_risk_status `{PyRuntime} (history : loc) (current_premium : float)
    : Script (RiskLabel * RiskIcon * string) :=
  n ← obj_len history;
  if (n <? 10)%Z then mret (Neutral, WhiteCircle, "Collecting initial data..."%string) else
  items ← load history;
  let premiums := Entry.combined <$> items in
  avg_premium ← lift (py_truediv_int (py_sum premiums) (py_len premiums));
  min_premium ← lift (py_min premiums);
  max_premium ← lift (py_max premiums);
  spread ← lift (py_truediv (max_premium - min_premium)%float avg_premium);
  let volatility := (spread * 100)%float in
  ago ← lift (py_index premiums (-10));
  ratio ← lift (py_truediv (current_premium - ago)%float ago);
  let recent_change_pct := (ratio * 100)%float in
  if (recent_change_pct <? -5)%float then
    mret (Safe, GreenCircle, "Premium compressing - Theta decay working well"%string)
  else if (10 <? recent_change_pct)%float then
    mret (Risky, RedCircle, "Premium expanding - Volatility risk increasing"%string)
  else if (15 <? volatility)%float then
    mret (Risky, RedCircle, "High premium volatility detected"%string)
  else if (5 <? recent_change_pct)%float then
    mret (Neutral, YellowCircle, "Slight premium expansion - Monitor closely"%string)
  else
    mret (Safe, GreenCircle, "Premium stable - Position behaving as expected"%string).

(** ** The refresh cycle *)

(** What one run of [main] puts on the page: the metrics with the two
    classifications, or one of the two error banners. *)
Inductive Display : Type :=
| Dashboard (premiums : Premiums.t) (trend : TrendLabel)
            (risk : RiskLabel * RiskIcon * string)
| PremiumsError   (* "Could not calculate premiums. Check if strikes are available." *)
| FetchError.     (* "Failed to fetch option chain data." *)

(** The entry [main] appends (lines 198-204). *)
Definition history_entry (timestamp : datetime) (premiums : Premiums.t) : Entry.t :=
  {| Entry.timestamp := timestamp;
     Entry.combined := Premiums.combined premiums;
     Entry.straddle_a := Premiums.straddle_a premiums;
     Entry.straddle_b := Premiums.straddle_b premiums;
     Entry.spot := Premiums.spot premiums |}.

(** The "Clear History" button (lines 184-186): when pressed, the history is
    rebound to a new empty list and the script reruns with the button
    released. *)
Definition clear_history_button (pressed : bool) : Script unit :=
  if pressed then l ← new_list []; set_premium_history l else mret ().

(** "Update history" and "Keep only last 500 data points" (lines 196-210). *)
Definition update_history (timestamp : datetime) (premiums : Premiums.t) : Script unit :=
  history ← get_premium_history;
  obj_append history (history_entry timestamp premiums);;
  history ← get_premium_history;
  n ← obj_len history;
  (if (500 <? n)%Z
   then tail ← obj_slice_from history (-500); l ← new_list tail; set_premium_history l
   else mret ());;
  set_last_update (Some timestamp).

(** "Determine trend and risk" (lines 212-217). *)
Definition classify `{PyRuntime} (premiums : Premiums.t)
    : Script (TrendLabel * (RiskLabel * RiskIcon * string)) :=
  history ← get_premium_history;
  trend ← determine_trend history 5;
  history ← get_premium_history;
  risk ← determine_risk_status history (Premiums.combined premiums);
  mret (trend, risk).

(** One run of the script body.  What the run gets from outside is passed
    in: [clear_history], whether the "Clear History" button was pressed;
    [fetched], what [fetch_option_chain] returned; [now], the clock.
    Rendering is left out. *)
Definition main `{PyRuntime} (clear_history : bool) (fetched : option (list ticker))
    (now : datetime) : Script Display :=
  clear_history_button clear_history;;
  match fetched with
  | Some ((_ :: _) as option_chain) =>
      match calculate_straddle_premiums option_chain STRIKE_1 STRIKE_2 with
      | Some premiums =>
          update_history now premiums;;
          labels ← classify premiums;
          mret (Dashboard premiums labels.1 labels.2)
      | None => mret PremiumsError
      end
  | _ => mret FetchError
  end.

(** The inputs of one run. *)
Record poll : Type := Poll {
  clear_pressed : bool;
  fetched_chain : option (list ticker);
  clock : datetime;
}.

(** A session: one run per poll, each on the world the previous one left
    (also when it ended in an exception).  The result of every run is kept,
    in order. *)
Fixpoint run_session `{PyRuntime} (polls : list poll) (w : world)
    : list (result Display) * world :=
  match polls with
  | [] => ([], w)
  | p :: rest =>
      let '(r, w') := main (clear_pressed p) (fetched_chain p) (clock p) w in
      let '(rs, w'') := run_session rest w' in
      (r :: rs, w'')
  end.

(** The items of the list [premium_history] is bound to. *)
Definition history_items (w : world) : list Entry.t :=
  default [] (heap w !! premium_history (session w)).

(** The entry a run appends, if it appends one. *)
Definition poll_entry (p : poll) : option Entry.t :=
  match fetched_chain p with
  | Some option_chain =>
      history_entry (clock p)
        <$> calculate_straddle_premiums option_chain STRIKE_1 STRIKE_2
  | None => None
  end.

(** The runs from the last press of "Clear History" on. *)
Fixpoint since_last_clear (polls : list poll) : list poll :=
  match polls with
  | [] => []
  | p :: rest =>
      if existsb clear_pressed rest then since_last_clear rest else p :: rest
  end.


(** * The expiry date *)

From Stdlib Require Import Ascii.
From stdpp Require Import sorting.

(** ** Python's [datetime], as far as [get_nearest_weekly_expiry] uses it

    For the calendar an instant is counted in seconds from the start of
    1 January of year 1, the day of ordinal 1 in Python's proleptic
    Gregorian calendar; the days run up to [MAXORDINAL], 31 December 9999.
    The functions below are those of CPython's [datetime] module. *)

Module Calendar.

#[local] Open Scope Z_scope.

Definition MAXORDINAL : Z := 3652059.

(** The instants [datetime] can hold. *)
Definition in_range (t : datetime) : Prop :=
  0 <= t < MAXORDINAL * 86400.

Definition toordinal (t : datetime) : Z := t / 86400 + 1.

Definition hour (t : datetime) : Z := (t mod 86400) / 3600.

(** [weekday()]: Monday is 0 and Sunday is 6. *)
Definition weekday (t : datetime) : Z := (toordinal t + 6) mod 7.

(** [t + timedelta(days=days)]: the same time of day that many days later;
    [None] stands for the [OverflowError] raised when the day leaves the
    calendar. *)
Definition add_days (t : datetime) (days : Z) : option datetime :=
  if decide (0 < toordinal t + days <= MAXORDINAL)
  then Some (t + 86400 * days)
  else None.

Definition DAYS_IN_MONTH : list Z :=
  [-1; 31; 28; 31; 30; 31; 30; 31; 31; 30; 31; 30; 31].

Definition DAYS_BEFORE_MONTH : list Z :=
  [-1; 0; 31; 59; 90; 120; 151; 181; 212; 243; 273; 304; 334].

Definition table (l : list Z) (i : Z) : Z := nth (Z.to_nat i) l 0.

Definition is_leap (year : Z) : bool :=
  (year mod 4 =? 0) && (negb (year mod 100 =? 0) || (year mod 400 =? 0)).

Definition days_before_year (year : Z) : Z :=
  let y := year - 1 in
  y * 365 + y / 4 - y / 100 + y / 400.

Definition days_in_month (year month : Z) : Z :=
  if (month =? 2) && is_leap year then 29 else table DAYS_IN_MONTH month.

Definition days_before_month (year month : Z) : Z :=
  table DAYS_BEFORE_MONTH month + Z.b2z ((2 <? month) && is_leap year).

Definition ymd2ord (year month day : Z) : Z :=
  days_before_year year + days_before_month year month + day.

Definition DI400Y : Z := 146097.
Definition DI100Y : Z := 36524.
Definition DI4Y : Z := 1461.

(** [_ord2ymd]: the year, the month and the day of an ordinal. *)
Definition ord2ymd (n : Z) : Z * Z * Z :=
  let n := n - 1 in
  let n400 := n / DI400Y in
  let n := n mod DI400Y in
  let year := n400 * 400 + 1 in
  let n100 := n / DI100Y in
  let n := n mod DI100Y in
  let n4 := n / DI4Y in
  let n := n mod DI4Y in
  let n1 := n / 365 in
  let n := n mod 365 in
  let year := year + (n100 * 100 + n4 * 4 + n1) in
  if (n1 =? 4) || (n100 =? 4) then (year - 1, 12, 31) else
  let leapyear := (n1 =? 3) && (negb (n4 =? 24) || (n100 =? 3)) in
  let month := Z.shiftr (n + 50) 5 in
  let preceding := table DAYS_BEFORE_MONTH month + Z.b2z ((2 <? month) && leapyear) in
  let '(month, preceding) :=
    if n <? preceding
    then (month - 1,
          preceding - (table DAYS_IN_MONTH (month - 1)
                       + Z.b2z ((month - 1 =? 2) && leapyear)))
    else (month, preceding) in
  let n := n - preceding in
  (year, month, n + 1).

Definition year (t : datetime) : Z := (ord2ymd (toordinal t)).1.1.
Definition month (t : datetime) : Z := (ord2ymd (toordinal t)).1.2.
Definition day (t : datetime) : Z := (ord2ymd (toordinal t)).2.

(** The decimal digit [n]. *)
Definition digit (n : Z) : ascii :=
  match n with
  | 0 => "0" | 1 => "1" | 2 => "2" | 3 => "3" | 4 => "4"
  | 5 => "5" | 6 => "6" | 7 => "7" | 8 => "8" | _ => "9"
  end%char.

(** The last [width] decimal digits of [n], with leading zeros. *)
Fixpoint digits (width : nat) (n : Z) : string :=
  match width with
  | O => EmptyString
  | S w => digits w (n / 10) +:+ String (digit (n mod 10)) EmptyString
  end.

(** [%d] and [%m] are padded with zeros to two digits; [%Y] is the year in
    decimal, which has four digits from the year 1000 on. *)
Definition format_d (t : datetime) : string := digits 2 (day t).
Definition format_m (t : datetime) : string := digits 2 (month t).
Definition format_Y (t : datetime) : string :=
  let y := year t in
  if y <? 10 then digits 1 y
  else if y <? 100 then digits 2 y
  else if y <? 1000 then digits 3 y
  else digits 4 y.

(** [t.strftime("%d-%m-%Y")]. *)
Definition strftime_dmY (t : datetime) : string :=
  format_d t +:+ "-" +:+ format_m t +:+ "-" +:+ format_Y t.

End Calendar.

(** ** [get_nearest_weekly_expiry]

    The clock is passed in as [now]. *)
Definition get_nearest_weekly_expiry (now : datetime) : option string :=
  let today := now in
  let days_until_friday := ((4 - Calendar.weekday today) mod 7)%Z in
  let days_until_friday :=
    if (days_until_friday =? 0)%Z && (15 <=? Calendar.hour today)%Z then 7%Z
    else days_until_friday in
  let days_until_friday :=
    if (days_until_friday =? 0)%Z then 0%Z else days_until_friday in
  nearest_friday ← Calendar.add_days today days_until_friday;
  Some (Calendar.strftime_dmY nearest_friday).
(** ** Specification-side notions *)

(** A leg is found in a snapshot when some record has the strike and the
    option-kind prefix. *)
Definition leg_located (option_chain : list ticker) (strike : float)
    (option_type : string) : bool :=
  existsb (leg_matches strike option_type) option_chain.

(** All four legs of the two straddles are found. *)
Definition four_legs_located (option_chain : list ticker) (strike_1 strike_2 : float) : bool :=
  leg_located option_chain strike_1 "C" && leg_located option_chain strike_1 "P"
  && leg_located option_chain strike_2 "C" && leg_located option_chain strike_2 "P".

(** The first record that matches the leg exists and has no mark-price
    field. *)
Definition first_match_unpriced (option_chain : list ticker) (strike : float)
    (option_type : string) : bool :=
  match List.find (leg_matches strike option_type) option_chain with
  | Some {| mark_price := None |} => true
  | _ => false
  end.

(** Python's [x == y] on two floats. *)
Definition py_eq (x y : float) : bool := (x =? y)%float.

(** A script fragment that leaves every object and the session state as it
    found them, whatever it returns or raises. *)
Definition readonly {A : Type} (m : Script A) : Prop :=
  forall w, (m w).2 = w.

(** The last [n] items of a list, all of them when it has fewer. *)
Definition last_n {A : Type} (n : nat) (l : list A) : list A :=
  drop (length l - n) l.

(** The quotient [a / b] of the formulas, which has no value when [b] is
    zero. *)
Definition ratio (a b : float) : option float :=
  if (b =? 0)%float then None else Some (a / b)%float.

(** [avg(l)]: the sum over the count, which has no value for an empty
    list. *)
Definition avg `{PyRuntime} (l : list float) : option float :=
  match l with
  | [] => None
  | _ :: _ => Some (py_sum l / float_of_int (Z.of_nat (length l)))%float
  end.

(** The percentage change from [old] to [new]: [(new - old) / old * 100]. *)
Definition pct_change (new old : float) : option float :=
  r ← ratio (new - old)%float old; Some (r * 100)%float.

(** The decision of the trend classifier. *)
Definition trend_of_change (change_pct : float) : TrendLabel :=
  if (1 <? change_pct)%float then Rising
  else if (change_pct <? -1)%float then Falling
  else Flat.

(** The trend classifier as the specification words it, over the combined
    premiums of the history: [None] where a formula has no value. *)
Definition trend_spec `{PyRuntime} (premiums : list float) (window : nat)
    : option TrendLabel :=
  if decide (length premiums < window) then Some InsufficientData else
  let recent := last_n window premiums in
  let first_half := take (window / 2) recent in
  let second_half := drop (window / 2) recent in
  avg_first ← avg first_half;
  avg_second ← avg second_half;
  change_pct ← pct_change avg_second avg_first;
  Some (trend_of_change change_pct).

(** How the code shows a formula without a value: the division raises. *)
Definition outcome {A : Type} (o : option A) : result A :=
  match o with
  | Some a => Ok a
  | None => Raise ZeroDivisionError
  end.

(** The smallest and the largest item, scanning from the left as [min] and
    [max] do; no value for an empty list. *)
Definition lowest (l : list float) : option float :=
  match l with
  | [] => None
  | x :: rest => Some (fold_left (fun m y => if (y <? m)%float then y else m) rest x)
  end.

Definition highest (l : list float) : option float :=
  match l with
  | [] => None
  | x :: rest => Some (fold_left (fun m y => if (m <? y)%float then y else m) rest x)
  end.

(** The first rule whose condition holds decides; [otherwise] when none
    does. *)
Fixpoint first_match {A : Type} (rules : list (bool * A)) (otherwise : A) : A :=
  match rules with
  | [] => otherwise
  | (true, a) :: _ => a
  | (false, _) :: rest => first_match rest otherwise
  end.

(** The decision table of the risk classifier, in precedence order. *)
Definition risk_rules (recent_change_pct volatility_pct : float)
    : list (bool * (RiskLabel * string)) :=
  [ ((recent_change_pct <? -5)%float,
     (Safe, "Premium compressing - Theta decay working well"%string));
    ((10 <? recent_change_pct)%float,
     (Risky, "Premium expanding - Volatility risk increasing"%string));
    ((15 <? volatility_pct)%float,
     (Risky, "High premium volatility detected"%string));
    ((5 <? recent_change_pct)%float,
     (Neutral, "Slight premium expansion - Monitor closely"%string)) ].

(** The risk classifier as the specification words it, over the combined
    premiums of the full history: [None] where a formula has no value. *)
Definition risk_spec `{PyRuntime} (premiums : list float) (current : float)
    : option (RiskLabel * string) :=
  if decide (length premiums < 10)
  then Some (Neutral, "Collecting initial data..."%string) else
  average ← avg premiums;
  lo ← lowest premiums;
  hi ← highest premiums;
  spread ← ratio (hi - lo)%float average;
  let volatility_pct := (spread * 100)%float in
  ten_ago ← premiums !! (length premiums - 10);
  recent_change_pct ← pct_change current ten_ago;
  Some (first_match (risk_rules recent_change_pct volatility_pct)
          (Safe, "Premium stable - Position behaving as expected"%string)).

(** The label and the rationale of a risk status, without the icon. *)
Definition verdict (status : RiskLabel * RiskIcon * string) : RiskLabel * string :=
  (status.1.1, status.2).

(** The session's history is a list object holding [items]. *)
Definition history_is (w : world) (items : list Entry.t) : Prop :=
  heap w !! premium_history (session w) = Some items.

(** The history one run leaves, from the history it finds. *)
Definition history_after (p : poll) (items : list Entry.t) : list Entry.t :=
  let kept := if clear_pressed p then [] else items in
  match poll_entry p with
  | Some e => last_n 500 (kept ++ [e])
  | None => kept
  end.

(** ** Example data *)

(** A history entry with the combined premium [c]. *)
Definition entry_of (c : float) : Entry.t :=
  {| Entry.timestamp := 0%Z;
     Entry.combined := c;
     Entry.straddle_a := c;
     Entry.straddle_b := 0%float;
     Entry.spot := None |}.

(** A session whose history holds the combined premiums [premiums]. *)
Definition world_of (premiums : list float) : world :=
  {| heap := {[ 1%positive := entry_of <$> premiums ]};
     session := {| premium_history := 1%positive; last_update := None |} |}.

(** A ticker of the chain. *)
Definition quote (name : string) (strike : float) (price : option float) : ticker :=
  {| strike_price := Some strike;
     symbol := Some name;
     mark_price := price;
     spot_price := Some 77000%float |}.

(** Two records for the same call, only the second without a mark price. *)
Definition duplicate_call_chain : list ticker :=
  [ quote "C-BTC-75000-270326" 75000 (Some 5%float);
    quote "C-BTC-75000-270326" 75000 None ].

(** The four legs, none with a mark price. *)
Definition unpriced_chain : list ticker :=
  [ quote "C-BTC-75000-270326" 75000 None;
    quote "P-BTC-75000-270326" 75000 None;
    quote "C-BTC-80000-270326" 80000 None;
    quote "P-BTC-80000-270326" 80000 None ].

(** A snapshot with the four legs at a quarter of [c] each, so that the
    combined premium is [c]. *)
Definition snapshot (c : float) : list ticker :=
  let q := (c / 4)%float in
  [ quote "C-BTC-75000-270326" 75000 (Some q);
    quote "P-BTC-75000-270326" 75000 (Some q);
    quote "C-BTC-80000-270326" 80000 (Some q);
    quote "P-BTC-80000-270326" 80000 (Some q) ].

(** A snapshot without the put at the second strike. *)
Definition three_leg_chain : list ticker :=
  [ quote "C-BTC-75000-270326" 75000 (Some 10%float);
    quote "P-BTC-75000-270326" 75000 (Some 20%float);
    quote "C-BTC-80000-270326" 80000 (Some 30%float) ].

(** The combined premiums of the end-to-end scenario: 15 values going down
    from 100 to 70 in equal steps, [100 - i * 30 / 14] for [i = 0 .. 14]. *)
Definition falling_ramp : list float :=
  (fun i => 100 - float_of_int (Z.of_nat i) * 30 / 14)%float <$> seq 0 15.

(** Each item is smaller than the one before. *)
Fixpoint strictly_decreasing (l : list float) : bool :=
  match l with
  | x :: ((y :: _) as rest) => (y <? x)%float && strictly_decreasing rest
  | _ => true
  end.

(** A run without a press of "Clear History" whose snapshot has the combined
    premium [c]. *)
Definition appends_premium (p : poll) (c : float) : Prop :=
  clear_pressed p = false /\ Entry.combined <$> poll_entry p = Some c.

(** Fifteen polls, one per premium of the ramp. *)
Definition falling_polls : list poll :=
  (fun i => {| clear_pressed := false;
               fetched_chain :=
                 Some (snapshot (100 - float_of_int (Z.of_nat i) * 30 / 14)%float);
               clock := (30 * Z.of_nat i)%Z |}) <$> seq 0 15.

(** [n] polls of one and the same snapshot, a second apart, without a press
    of "Clear History". *)
Definition steady_polls (n : nat) : list poll :=
  (fun i => {| clear_pressed := false;
               fetched_chain := Some (snapshot 100);
               clock := Z.of_nat i |}) <$> seq 0 n.


(** ** Notions for the further properties *)

(** A script fragment whose result does not depend on the world it runs
    in. *)
Definition world_independent {A : Type} (m : Script A) : Prop :=
  forall w1 w2, (m w1).1 = (m w2).1.

(** Whatever a script fragment returns satisfies [P]. *)
Definition returns {A : Type} (m : Script A) (P : A -> Prop) : Prop :=
  forall w a w', m w = (Ok a, w') -> P a.

(** The six statuses written in [determine_risk_status]. *)
Definition risk_statuses : list (RiskLabel * RiskIcon * string) :=
  [ (Neutral, WhiteCircle, "Collecting initial data..."%string);
    (Safe, GreenCircle, "Premium compressing - Theta decay working well"%string);
    (Risky, RedCircle, "Premium expanding - Volatility risk increasing"%string);
    (Risky, RedCircle, "High premium volatility detected"%string);
    (Neutral, YellowCircle, "Slight premium expansion - Monitor closely"%string);
    (Safe, GreenCircle, "Premium stable - Position behaving as expected"%string) ].

(** The colour main's banner takes for a label (lines 243-248): success for
    "Safe", error for "Risky", warning for anything else. *)
Definition icon_fits (label : RiskLabel) (icon : RiskIcon) : Prop :=
  match label with
  | Safe => icon = GreenCircle
  | Risky => icon = RedCircle
  | Neutral => icon = WhiteCircle \/ icon = YellowCircle
  end.

(** What holds of every entry [main] builds: the combined premium is the sum
    of the two straddles, and the spot price is there. *)
Definition entry_well_formed (e : Entry.t) : Prop :=
  Entry.combined e = (Entry.straddle_a e + Entry.straddle_b e)%float
  /\ is_Some (Entry.spot e).

(** A session whose history holds [items]. *)
Definition world_with (items : list Entry.t) : world :=
  {| heap := {[ 1%positive := items ]};
     session := {| premium_history := 1%positive; last_update := None |} |}.

(** A history entry with the combined premium [c], taken at [t], split
    evenly between the two straddles. *)
Definition stamped_entry (t : datetime) (c : float) : Entry.t :=
  {| Entry.timestamp := t;
     Entry.combined := c;
     Entry.straddle_a := (c / 2)%float;
     Entry.straddle_b := (c / 2)%float;
     Entry.spot := Some 77000%float |}.

(** The "Last updated" stamp goes with the newest entry of the history, when
    there is one. *)
Definition stamp_matches_newest (w : world) : Prop :=
  match last (history_items w) with
  | Some newest => last_update (session w) = Some (Entry.timestamp newest)
  | None => True
  end.


(** ** Notions for the expiry date *)

(** 15:00 on the day of [t]. *)
Definition three_pm (t : datetime) : datetime :=
  (t / 86400 * 86400 + 15 * 3600)%Z.

(** [t] falls on a Friday whose 15:00 is still ahead at [now]. *)
Definition open_friday (now t : datetime) : Prop :=
  Calendar.weekday t = 4%Z /\ (now < three_pm t)%Z.

(** 15:00 on the last day of the calendar, 31 December 9999. *)
Definition last_three_pm : datetime :=
  ((Calendar.MAXORDINAL - 1) * 86400 + 15 * 3600)%Z.

(** The start of 1 January 1000, from which on years have four digits. *)
Definition year_1000 : datetime :=
  (Calendar.days_before_year 1000 * 86400)%Z.

(** Reading a date back from its text. *)
Definition digit_value (c : ascii) : option Z :=
  let n := (Z.of_nat (nat_of_ascii c) - 48)%Z in
  if decide (0 <= n <= 9)%Z then Some n else None.

Definition number (text : list ascii) : option Z :=
  foldl (fun so_far c => n ← so_far; d ← digit_value c; Some (10 * n + d)%Z)
        (Some 0%Z) text.

(** The day, the month and the year written as [DD-MM-YYYY]. *)
Definition read_dmY (text : string) : option (Z * Z * Z) :=
  match text with
  | String d1 (String d2 (String s1 (String m1 (String m2 (String s2
      (String y1 (String y2 (String y3 (String y4 EmptyString))))))))) =>
      if Ascii.eqb s1 "-" && Ascii.eqb s2 "-" then
        d ← number [d1; d2]; m ← number [m1; m2]; y ← number [y1; y2; y3; y4];
        Some (d, m, y)
      else None
  | _ => None
  end.

(** The ordinal of the day a text [DD-MM-YYYY] names, when it names one. *)
Definition read_ordinal (text : string) : option Z :=
  '(d, m, y) ← read_dmY text;
  if decide (1 <= m <= 12 /\ 1 <= d <= Calendar.days_in_month y m)%Z
  then Some (Calendar.ymd2ord y m d) else None.

(** [P] holds of [count] consecutive numbers from [start] on. *)
Fixpoint holds_from (P : Z -> bool) (start : Z) (count : nat) : bool :=
  match count with
  | O => true
  | S count => if P start then holds_from P (start + 1)%Z count else false
  end.

(** What [ord2ymd] has to give for the day after [r] days: a month, a day of
    that month, the ordinal back, and a year that holds the day. *)
Definition calendar_check (r : Z) : bool :=
  let '(y, m, d) := Calendar.ord2ymd (r + 1) in
  ((1 <=? m) && (m <=? 12) && (1 <=? d) && (d <=? Calendar.days_in_month y m)
   && (Calendar.ymd2ord y m d =? r + 1)
   && (Calendar.days_before_year y <? r + 1)
   && (r + 1 <=? Calendar.days_before_year (y + 1)))%Z.
(** * Properties *)

(** ** Premium extraction *)

Lemma get_option_price_loop_eq option_chain strike option_type :
  get_option_price option_chain strike option_type
  = get_option_price_loop option_chain strike option_type.
Proof. by destruct option_chain. Qed.

(** The lookup is the mark price (0 when the field is absent) of the first
    matching record. *)
Lemma get_option_price_find option_chain strike option_type :
  get_option_price option_chain strike option_type
  = (fun option => default 0%float (mark_price option))
      <$> List.find (leg_matches strike option_type) option_chain.
Proof.
  rewrite get_option_price_loop_eq.
  induction option_chain as [|option rest IH]; simpl; [done|].
  by destruct (leg_matches strike option_type option).
Qed.

Lemma get_option_price_located option_chain strike option_type :
  leg_located option_chain strike option_type = true ->
  is_Some (get_option_price option_chain strike option_type).
Proof.
  rewrite get_option_price_find. unfold leg_located.
  induction option_chain as [|option rest IH]; simpl; [done|].
  destruct (leg_matches strike option_type option); simpl; eauto.
Qed.

Lemma get_option_price_not_located option_chain strike option_type :
  leg_located option_chain strike option_type = false ->
  get_option_price option_chain strike option_type = None.
Proof.
  rewrite get_option_price_find. unfold leg_located.
  induction option_chain as [|option rest IH]; simpl; [done|].
  destruct (leg_matches strike option_type option); simpl; [done|auto].
Qed.

(** A float that is no NaN compares equal to itself. *)
Lemma py_eq_refl x : PrimFloat.is_nan x = false -> py_eq x x = true.
Proof. unfold py_eq, PrimFloat.is_nan. by destruct (x =? x)%float. Qed.

(** C1.  When all four legs are found, extraction returns a record whose
    legs are the four lookups and whose totals are exactly the float sums
    the specification names: each straddle is its call plus its put and the
    combined premium is the sum of the two straddles.  Python's [==] confirms
    each equation whenever the total is a number (no NaN). *)
Theorem straddle_premium_sums option_chain strike_1 strike_2 :
  four_legs_located option_chain strike_1 strike_2 = true ->
  exists p,
    calculate_straddle_premiums option_chain strike_1 strike_2 = Some p
    /\ get_option_price option_chain strike_1 "C" = Some (Premiums.call_1 p)
    /\ get_option_price option_chain strike_1 "P" = Some (Premiums.put_1 p)
    /\ get_option_price option_chain strike_2 "C" = Some (Premiums.call_2 p)
    /\ get_option_price option_chain strike_2 "P" = Some (Premiums.put_2 p)
    /\ Premiums.combined p = (Premiums.straddle_a p + Premiums.straddle_b p)%float
    /\ Premiums.straddle_a p = (Premiums.call_1 p + Premiums.put_1 p)%float
    /\ Premiums.straddle_b p = (Premiums.call_2 p + Premiums.put_2 p)%float
    /\ (PrimFloat.is_nan (Premiums.combined p) = false ->
        py_eq (Premiums.combined p)
              (Premiums.straddle_a p + Premiums.straddle_b p) = true)
    /\ (PrimFloat.is_nan (Premiums.straddle_a p) = false ->
        py_eq (Premiums.straddle_a p) (Premiums.call_1 p + Premiums.put_1 p) = true)
    /\ (PrimFloat.is_nan (Premiums.straddle_b p) = false ->
        py_eq (Premiums.straddle_b p) (Premiums.call_2 p + Premiums.put_2 p) = true).
Proof.
  unfold four_legs_located. rewrite !andb_true_iff.
  intros [[[Hc1 Hp1] Hc2] Hp2].
  destruct (get_option_price_located _ _ _ Hc1) as [c1 Ec1].
  destruct (get_option_price_located _ _ _ Hp1) as [p1 Ep1].
  destruct (get_option_price_located _ _ _ Hc2) as [c2 Ec2].
  destruct (get_option_price_located _ _ _ Hp2) as [p2 Ep2].
  unfold calculate_straddle_premiums. rewrite Ec1, Ep1, Ec2, Ep2.
  eexists. split; [reflexivity|]. simpl.
  repeat split; auto using py_eq_refl.
Qed.

Lemma straddle_premium_sums_witness :
  four_legs_located (snapshot 100) STRIKE_1 STRIKE_2 = true
  /\ exists p,
       calculate_straddle_premiums (snapshot 100) STRIKE_1 STRIKE_2 = Some p
       /\ Premiums.combined p = (Premiums.straddle_a p + Premiums.straddle_b p)%float
       /\ Premiums.straddle_a p = (Premiums.call_1 p + Premiums.put_1 p)%float
       /\ Premiums.straddle_b p = (Premiums.call_2 p + Premiums.put_2 p)%float.
Proof.
  split; [reflexivity|].
  destruct (straddle_premium_sums (snapshot 100) STRIKE_1 STRIKE_2 eq_refl)
    as (p & Hp & _ & _ & _ & _ & Hc & Ha & Hb & _).
  exists p. repeat split; assumption.
Defined.

(** ** Running scripts *)

Lemma bind_ok {A B : Type} (m : Script A) (k : A -> Script B) w a w' :
  m w = (Ok a, w') -> (m ≫= k) w = k a w'.
Proof. unfold mbind, script_bind. by intros ->. Qed.

Lemma load_bound w l items :
  heap w !! l = Some items -> load l w = (Ok items, w).
Proof. unfold load. by intros ->. Qed.

Lemma obj_len_bound w l items :
  heap w !! l = Some items -> obj_len l w = (Ok (py_len items), w).
Proof. intros Hl. unfold obj_len. by rewrite (bind_ok _ _ _ _ _ (load_bound _ _ _ Hl)). Qed.

Lemma obj_slice_from_bound w l items i :
  heap w !! l = Some items ->
  obj_slice_from l i w = (Ok (py_slice_from items i), w).
Proof.
  intros Hl. unfold obj_slice_from.
  by rewrite (bind_ok _ _ _ _ _ (load_bound _ _ _ Hl)).
Qed.

(** ** Read-only fragments *)

Lemma readonly_ret {A : Type} (a : A) : readonly (mret a).
Proof. by intros w. Qed.

Lemma readonly_lift {A : Type} (r : result A) : readonly (lift r).
Proof. by intros w. Qed.

Lemma readonly_load l : readonly (load l).
Proof. intros w. unfold load. by destruct (heap w !! l). Qed.

Lemma readonly_bind {A B : Type} (m : Script A) (k : A -> Script B) :
  readonly m -> (forall a, readonly (k a)) -> readonly (m ≫= k).
Proof.
  intros Hm Hk w. unfold mbind, script_bind.
  specialize (Hm w). destruct (m w) as [[a|e] w']; simpl in *; subst w'.
  - apply Hk.
  - done.
Qed.

Lemma readonly_get_premium_history : readonly get_premium_history.
Proof. by intros w. Qed.

Ltac readonly_step :=
  first
    [ apply readonly_ret
    | apply readonly_lift
    | apply readonly_load
    | apply readonly_get_premium_history
    | apply readonly_bind; [| intros ?]
    | match goal with
      | |- readonly (if ?b then _ else _) => destruct b
      end ].

Lemma readonly_obj_len l : readonly (obj_len l).
Proof. unfold obj_len. repeat readonly_step. Qed.

Lemma readonly_obj_slice_from l i : readonly (obj_slice_from l i).
Proof. unfold obj_slice_from. repeat readonly_step. Qed.

Lemma determine_trend_readonly `{PyRuntime} history window :
  readonly (determine_trend history window).
Proof.
  unfold determine_trend.
  repeat first [ apply readonly_obj_len | apply readonly_obj_slice_from | readonly_step ].
Qed.

Lemma determine_risk_status_readonly `{PyRuntime} history current_premium :
  readonly (determine_risk_status history current_premium).
Proof.
  unfold determine_risk_status.
  repeat first [ apply readonly_obj_len | readonly_step ].
Qed.

(** C10.  The classifiers only read the history they are handed: after a
    call to [determine_trend] or to [determine_risk_status], whether it
    returned or raised, every list object (the history among them, with the
    same entries in the same order) and the session state are what they were
    before the call. *)
Theorem classifiers_leave_history_unchanged `{PyRuntime} (w : world) (history : loc)
    (window : Z) (current_premium : float) :
  (determine_trend history window w).2 = w
  /\ (determine_risk_status history current_premium w).2 = w
  /\ heap (determine_trend history window w).2 !! history = heap w !! history
  /\ heap (determine_risk_status history current_premium w).2 !! history
     = heap w !! history.
Proof.
  pose proof (determine_trend_readonly history window w) as Ht.
  pose proof (determine_risk_status_readonly history current_premium w) as Hr.
  by rewrite Ht, Hr.
Qed.

(** ** Risk classifier *)

(** C8.  With fewer than 10 entries in the history the risk classifier
    answers Neutral, "Collecting initial data...", for every current
    premium, and changes nothing. *)
Theorem risk_collecting_initial_data `{PyRuntime} (w : world) (history : loc)
    (items : list Entry.t) (current_premium : float) :
  heap w !! history = Some items ->
  length items < 10 ->
  determine_risk_status history current_premium w
  = (Ok (Neutral, WhiteCircle, "Collecting initial data..."%string), w).
Proof.
  intros Hl Hlen. unfold determine_risk_status.
  rewrite (bind_ok _ _ _ _ _ (obj_len_bound _ _ _ Hl)).
  unfold py_len. destruct (Z.ltb_spec (Z.of_nat (length items)) 10); [done | lia].
Qed.

Lemma risk_collecting_initial_data_witness :
  heap (world_of (replicate 9 100%float)) !! 1%positive
  = Some (entry_of <$> replicate 9 100%float)
  /\ length (entry_of <$> replicate 9 100%float) < 10
  /\ @determine_risk_status cpython_311 1%positive 250%float
       (world_of (replicate 9 100%float))
     = (Ok (Neutral, WhiteCircle, "Collecting initial data..."%string),
        world_of (replicate 9 100%float)).
Proof.
  split; [reflexivity|]. split; [vm_compute; lia|].
  apply (@risk_collecting_initial_data cpython_311 (world_of (replicate 9 100%float))
           1%positive (entry_of <$> replicate 9 100%float) 250%float);
    [reflexivity | vm_compute; lia].
Defined.

(** ** Slices *)

Lemma py_slice_from_last_n {A : Type} (l : list A) (n : nat) :
  1 <= n -> py_slice_from l (- Z.of_nat n) = last_n n l.
Proof.
  intros Hn. unfold py_slice_from, last_n, slice_bound, py_len. f_equal.
  destruct (Z.ltb_spec (- Z.of_nat n) 0); lia.
Qed.

Lemma py_slice_from_nat {A : Type} (l : list A) (n : nat) :
  py_slice_from l (Z.of_nat n) = drop n l.
Proof.
  unfold py_slice_from, slice_bound, py_len.
  destruct (Z.ltb_spec (Z.of_nat n) 0); [lia|].
  destruct (decide (n <= length l)) as [Hle|Hgt].
  - f_equal. lia.
  - rewrite !drop_ge by lia. done.
Qed.

Lemma py_slice_to_nat {A : Type} (l : list A) (n : nat) :
  py_slice_to l (Z.of_nat n) = take n l.
Proof.
  unfold py_slice_to, slice_bound, py_len.
  destruct (Z.ltb_spec (Z.of_nat n) 0); [lia|].
  destruct (decide (n <= length l)) as [Hle|Hgt].
  - f_equal. lia.
  - rewrite !take_ge by lia. done.
Qed.

Lemma length_last_n {A : Type} (l : list A) (n : nat) :
  n <= length l -> length (last_n n l) = n.
Proof. intros Hn. unfold last_n. rewrite length_drop. lia. Qed.

Lemma fmap_last_n {A B : Type} (f : A -> B) (n : nat) (l : list A) :
  f <$> last_n n l = last_n n (f <$> l).
Proof. unfold last_n. by rewrite fmap_drop, length_fmap. Qed.

Lemma py_truediv_ratio a b : py_truediv a b = outcome (ratio a b).
Proof. unfold py_truediv, ratio. by destruct (b =? 0)%float. Qed.

Lemma py_truediv_int_avg `{PyRuntime} (l : list float) (n : Z) :
  n = Z.of_nat (length l) -> py_truediv_int (py_sum l) n = outcome (avg l).
Proof. intros ->. by destruct l. Qed.

Lemma lift_bind {A B : Type} (r : result A) (k : A -> Script B) w :
  (lift r ≫= k) w = match r with Ok a => k a w | Raise e => (Raise e, w) end.
Proof. unfold mbind, script_bind, lift. by destruct r. Qed.

(** ** Trend classifier *)

(** For a window of at least one entry the code computes what the
    specification words, and raises [ZeroDivisionError] exactly where the
    formula has no value. *)
Lemma determine_trend_refines `{PyRuntime} (w : world) (history : loc)
    (items : list Entry.t) (window : nat) :
  heap w !! history = Some items ->
  1 <= window ->
  determine_trend history (Z.of_nat window) w
  = (outcome (trend_spec (Entry.combined <$> items) window), w).
Proof.
  intros Hl Hw. unfold determine_trend, trend_spec.
  rewrite (bind_ok _ _ _ _ _ (obj_len_bound _ _ _ Hl)).
  rewrite length_fmap. unfold py_len at 1.
  destruct (Z.ltb_spec (Z.of_nat (length items)) (Z.of_nat window)) as [Hlt|Hge];
    destruct (decide (length items < window)) as [Hlt'|Hge']; try lia; [done|].
  rewrite (bind_ok _ _ _ _ _ (obj_slice_from_bound _ _ _ _ Hl)).
  rewrite py_slice_from_last_n by done.
  rewrite fmap_last_n. set (recent := last_n window (Entry.combined <$> items)).
  assert (Hlen : length recent = window).
  { apply length_last_n. rewrite length_fmap. lia. }
  unfold py_len. rewrite Hlen.
  assert (Hhalf : (Z.of_nat window `div` 2)%Z = Z.of_nat (window / 2)).
  { by rewrite Nat2Z.inj_div. }
  rewrite Hhalf, py_slice_to_nat, py_slice_from_nat.
  pose proof (Nat.Div0.mul_div_le window 2) as Hle.
  rewrite lift_bind, (py_truediv_int_avg (take (window / 2) recent))
    by (rewrite length_take; lia).
  destruct (avg (take (window / 2) recent)) as [avg_first|];
    cbn [outcome mbind option_bind]; [|done].
  rewrite lift_bind, (py_truediv_int_avg (drop (window / 2) recent))
    by (rewrite length_drop; lia).
  destruct (avg (drop (window / 2) recent)) as [avg_second|];
    cbn [outcome mbind option_bind]; [|done].
  rewrite lift_bind, py_truediv_ratio. unfold pct_change.
  destruct (ratio (avg_second - avg_first) avg_first) as [r|];
    cbn [outcome mbind option_bind]; [|done].
  unfold trend_of_change.
  by repeat match goal with |- context [if ?b then _ else _] => destruct b end.
Qed.

Lemma avg_nonempty `{PyRuntime} (l : list float) : 0 < length l -> is_Some (avg l).
Proof. destruct l; simpl; [lia|eauto]. Qed.

(** C3, as amended.  For every history the trend classifier changes
    nothing and: with fewer than [window] entries it answers
    InsufficientData; otherwise, for a window of at least 2, it takes the
    last [window] combined premiums, splits them after the first
    [window / 2], and, when the first-half average is not zero, answers by
    [change_pct = (avg second - avg first) / avg first * 100]: Rising above 1,
    Falling below -1, Flat otherwise.  In particular the premiums
    100, 100, 100, 90, 80 with window 5 give Falling. *)
Theorem trend_classifier (w : world) (history : loc) (items : list Entry.t) :
  heap w !! history = Some items ->
  (forall (R : PyRuntime) (window : Z),
      (py_len items < window)%Z ->
      determine_trend history window w = (Ok InsufficientData, w))
  /\ (forall (R : PyRuntime) (window : nat),
      2 <= window <= length items ->
      let recent := last_n window (Entry.combined <$> items) in
      exists avg_first avg_second : float,
        avg (take (window / 2) recent) = Some avg_first
        /\ avg (drop (window / 2) recent) = Some avg_second
        /\ ((avg_first =? 0)%float = false ->
            let change_pct := ((avg_second - avg_first) / avg_first * 100)%float in
            determine_trend history (Z.of_nat window) w
            = (Ok (if (1 <? change_pct)%float then Rising
                   else if (change_pct <? -1)%float then Falling
                   else Flat), w)))
  /\ (Entry.combined <$> items = [100; 100; 100; 90; 80]%float ->
      @determine_trend cpython_311 history 5 w = (Ok Falling, w)
      /\ @determine_trend cpython_312 history 5 w = (Ok Falling, w)).
Proof.
  intros Hl. split; [|split].
  - intros R window Hlt. unfold determine_trend.
    rewrite (bind_ok _ _ _ _ _ (obj_len_bound _ _ _ Hl)).
    by destruct (Z.ltb_spec (py_len items) window); [|lia].
  - intros R window [Hw1 Hw2] recent.
    assert (Hlen : length recent = window).
    { apply length_last_n. rewrite length_fmap. lia. }
    pose proof (Nat.Div0.mul_div_le window 2) as Hle.
    assert (Hhalf : 1 <= window / 2).
    { change 1 with (2 / 2). by apply Nat.Div0.div_le_mono. }
    destruct (avg_nonempty (take (window / 2) recent)) as [avg_first Hfirst].
    { rewrite length_take. lia. }
    destruct (avg_nonempty (drop (window / 2) recent)) as [avg_second Hsecond].
    { rewrite length_drop. lia. }
    exists avg_first, avg_second. split; [done|]. split; [done|].
    intros Hnz change_pct.
    rewrite (determine_trend_refines w history items window Hl) by lia.
    unfold trend_spec. rewrite length_fmap.
    destruct (decide (length items < window)); [lia|].
    cbn zeta. fold recent. rewrite Hfirst, Hsecond. cbn [mbind option_bind].
    unfold pct_change, ratio. rewrite Hnz. reflexivity.
  - intros Hp. change 5%Z with (Z.of_nat 5). split.
    + rewrite (@determine_trend_refines cpython_311 w history items 5 Hl) by lia.
      by rewrite Hp.
    + rewrite (@determine_trend_refines cpython_312 w history items 5 Hl) by lia.
      by rewrite Hp.
Qed.

Lemma trend_classifier_witness :
  heap (world_of [100; 100; 100; 90; 80]%float) !! 1%positive
  = Some (entry_of <$> [100; 100; 100; 90; 80]%float)
  /\ Entry.combined <$> (entry_of <$> [100; 100; 100; 90; 80]%float)
     = [100; 100; 100; 90; 80]%float
  /\ @determine_trend cpython_311 1%positive 5 (world_of [100; 100; 100; 90; 80]%float)
     = (Ok Falling, world_of [100; 100; 100; 90; 80]%float)
  /\ @determine_trend cpython_312 1%positive 5 (world_of [100; 100; 100; 90; 80]%float)
     = (Ok Falling, world_of [100; 100; 100; 90; 80]%float).
Proof.
  split; [reflexivity|]. split; [reflexivity|].
  exact (proj2 (proj2 (trend_classifier (world_of [100; 100; 100; 90; 80]%float)
                         1%positive (entry_of <$> [100; 100; 100; 90; 80]%float)
                         eq_refl))
           eq_refl).
Defined.

(** The claim of C3 fails at three places.  At window 0 the slice
    [history[-0:]] is the whole history, so the code classifies the two
    entries 100, 200 as Rising, where the last 0 premiums have no halves to
    average.  At window 1 the first half is empty and the call raises.  And
    at window 5, with the premiums 0, 0, 5, 5, 5, the first-half average is 0
    and the call raises instead of returning a label. *)
Lemma trend_classifier_counterexample :
  (@determine_trend cpython_311 1%positive 0 (world_of [100; 200]%float)
   = (Ok Rising, world_of [100; 200]%float)
   /\ last_n 0 [100; 200]%float = []
   /\ @trend_spec cpython_311 [100; 200]%float 0 = None)
  /\ (take (1 / 2) (last_n 1 [100]%float) = []
      /\ @determine_trend cpython_311 1%positive 1 (world_of [100]%float)
         = (Raise ZeroDivisionError, world_of [100]%float))
  /\ (@avg cpython_311 (take (5 / 2) (last_n 5 [0; 0; 5; 5; 5]%float)) = Some 0%float
      /\ @determine_trend cpython_311 1%positive 5 (world_of [0; 0; 5; 5; 5]%float)
         = (Raise ZeroDivisionError, world_of [0; 0; 5; 5; 5]%float)).
Proof. repeat split; reflexivity. Qed.

(** ** Risk classifier: the formulas *)

Lemma py_min_lowest (l : list float) x : lowest l = Some x -> py_min l = Ok x.
Proof. destruct l; simpl; [done|]. by intros [= <-]. Qed.

Lemma py_max_highest (l : list float) x : highest l = Some x -> py_max l = Ok x.
Proof. destruct l; simpl; [done|]. by intros [= <-]. Qed.

Lemma py_index_ten_ago {A : Type} (l : list A) a :
  10 <= length l -> l !! (length l - 10) = Some a -> py_index l (-10) = Ok a.
Proof.
  intros Hlen Ha. unfold py_index, py_len. simpl.
  destruct (Z.ltb_spec (-10 + Z.of_nat (length l)) 0); [lia|].
  replace (Z.to_nat (-10 + Z.of_nat (length l))) with (length l - 10) by lia.
  by rewrite Ha.
Qed.

(** The code computes what the specification words, and raises
    [ZeroDivisionError] exactly where a formula has no value. *)
Lemma determine_risk_status_refines `{PyRuntime} (w : world) (history : loc)
    (items : list Entry.t) (current_premium : float) :
  heap w !! history = Some items ->
  (determine_risk_status history current_premium w).2 = w
  /\ verdict <$> (determine_risk_status history current_premium w).1
     = outcome (risk_spec (Entry.combined <$> items) current_premium).
Proof.
  intros Hl. split; [apply determine_risk_status_readonly|].
  unfold determine_risk_status, risk_spec.
  rewrite (bind_ok _ _ _ _ _ (obj_len_bound _ _ _ Hl)).
  rewrite length_fmap. unfold py_len at 1.
  destruct (Z.ltb_spec (Z.of_nat (length items)) 10) as [Hlt|Hge];
    destruct (decide (length items < 10)) as [Hlt'|Hge']; try lia; [done|].
  rewrite (bind_ok _ _ _ _ _ (load_bound _ _ _ Hl)).
  set (premiums := Entry.combined <$> items).
  assert (Hlen : length premiums = length items) by apply length_fmap.
  clearbody premiums.
  rewrite lift_bind, (py_truediv_int_avg premiums) by done.
  destruct (avg premiums) as [average|];
    cbn [outcome mbind option_bind]; [|done].
  destruct (lowest premiums) as [lo|] eqn:Hlo; cycle 1.
  { exfalso. destruct premiums; simpl in *; [lia|done]. }
  destruct (highest premiums) as [hi|] eqn:Hhi; cycle 1.
  { exfalso. destruct premiums; simpl in *; [lia|done]. }
  rewrite lift_bind, (py_min_lowest _ _ Hlo).
  rewrite lift_bind, (py_max_highest _ _ Hhi).
  rewrite lift_bind, py_truediv_ratio. cbn [mbind option_bind].
  destruct (ratio (hi - lo) average) as [spread|];
    cbn [outcome mbind option_bind]; [|done].
  rewrite <- Hlen.
  destruct (premiums !! (length premiums - 10)) as [ten_ago|] eqn:Hago; cycle 1.
  { exfalso. apply lookup_ge_None in Hago. lia. }
  assert (Hten : 10 <= length premiums) by lia.
  rewrite lift_bind, (py_index_ten_ago _ _ Hten Hago).
  rewrite lift_bind, py_truediv_ratio. unfold pct_change. cbn [mbind option_bind].
  destruct (ratio (current_premium - ten_ago) ten_ago) as [r|];
    cbn [outcome mbind option_bind]; [|done].
  unfold risk_rules. cbn [first_match].
  by repeat match goal with |- context [if ?b then _ else _] => destruct b end.
Qed.

(** C4, as amended.  For every history of at least 10 entries and every
    current premium, the average, the minimum and the maximum over the whole
    history and the premium ten from the end are there, and the risk
    classifier changes nothing; when the average and the premium ten from
    the end are not zero, it answers from
    [volatility_pct = (max - min) / avg * 100] and
    [recent_change_pct = (current - premiums[-10]) / premiums[-10] * 100] by
    the first rule that holds, in this order: recent change < -5, Safe;
    recent change > 10, Risky; volatility > 15, Risky; recent change > 5,
    Neutral; otherwise Safe, each with its rationale. *)
Theorem risk_classifier `{PyRuntime} (w : world) (history : loc)
    (items : list Entry.t) (current_premium : float) :
  heap w !! history = Some items ->
  10 <= length items ->
  let premiums := Entry.combined <$> items in
  exists average lo hi ten_ago : float,
    avg premiums = Some average
    /\ lowest premiums = Some lo
    /\ highest premiums = Some hi
    /\ premiums !! (length premiums - 10) = Some ten_ago
    /\ (determine_risk_status history current_premium w).2 = w
    /\ ((average =? 0)%float = false ->
        (ten_ago =? 0)%float = false ->
        let volatility_pct := ((hi - lo) / average * 100)%float in
        let recent_change_pct :=
          ((current_premium - ten_ago) / ten_ago * 100)%float in
        verdict <$> (determine_risk_status history current_premium w).1
        = Ok (if (recent_change_pct <? -5)%float then
                (Safe, "Premium compressing - Theta decay working well"%string)
              else if (10 <? recent_change_pct)%float then
                (Risky, "Premium expanding - Volatility risk increasing"%string)
              else if (15 <? volatility_pct)%float then
                (Risky, "High premium volatility detected"%string)
              else if (5 <? recent_change_pct)%float then
                (Neutral, "Slight premium expansion - Monitor closely"%string)
              else
                (Safe, "Premium stable - Position behaving as expected"%string))).
Proof.
  intros Hl Hlen premiums.
  assert (Hlen' : length premiums = length items) by apply length_fmap.
  destruct (avg_nonempty premiums) as [average Havg]; [lia|].
  assert (Hlo : is_Some (lowest premiums)).
  { destruct premiums; simpl in *; [lia|eauto]. }
  assert (Hhi : is_Some (highest premiums)).
  { destruct premiums; simpl in *; [lia|eauto]. }
  destruct Hlo as [lo Hlo]. destruct Hhi as [hi Hhi].
  destruct (lookup_lt_is_Some_2 premiums (length premiums - 10)) as [ten_ago Hago];
    [lia|].
  exists average, lo, hi, ten_ago. do 4 (split; [done|]).
  destruct (determine_risk_status_refines w history items current_premium Hl) as [Hw Hr].
  split; [done|].
  intros Hnz1 Hnz2 volatility_pct recent_change_pct.
  rewrite Hr. unfold risk_spec. fold premiums.
  destruct (decide (length premiums < 10)); [lia|].
  rewrite Havg, Hlo, Hhi. cbn [mbind option_bind].
  unfold pct_change, ratio. rewrite Hnz1. cbn [mbind option_bind].
  rewrite Hago. cbn [mbind option_bind]. rewrite Hnz2. cbn [mbind option_bind outcome].
  unfold risk_rules. cbn [first_match].
  fold volatility_pct recent_change_pct.
  by repeat match goal with |- context [if ?b then _ else _] => destruct b end.
Qed.

Lemma risk_classifier_witness :
  heap (world_of (replicate 10 100%float)) !! 1%positive
  = Some (entry_of <$> replicate 10 100%float)
  /\ 10 <= length (entry_of <$> replicate 10 100%float)
  /\ verdict <$> (@determine_risk_status cpython_311 1%positive 112%float
                    (world_of (replicate 10 100%float))).1
     = Ok (Risky, "Premium expanding - Volatility risk increasing"%string).
Proof.
  split; [reflexivity|]. split; [vm_compute; lia|].
  destruct (@risk_classifier cpython_311 (world_of (replicate 10 100%float)) 1%positive
              (entry_of <$> replicate 10 100%float) 112%float
              eq_refl ltac:(vm_compute; lia))
    as (average & lo & hi & ten_ago & Havg & Hlo & Hhi & Hago & _ & Hverdict).
  vm_compute in Havg, Hlo, Hhi, Hago.
  injection Havg as <-. injection Hlo as <-. injection Hhi as <-. injection Hago as <-.
  exact (Hverdict eq_refl eq_refl).
Defined.

(** The claim of C4 fails where a divisor is zero: with the history
    0, 100, ..., 100 the premium ten from the end is 0, and with the history
    -100, 100, 0, ..., 0 the average is 0; the call raises and returns no
    label. *)
Lemma risk_zero_divisor_counterexample :
  (10 <= length (0 :: replicate 9 100)%float
   /\ (0 :: replicate 9 100)%float !! (10 - 10) = Some 0%float
   /\ @determine_risk_status cpython_311 1%positive 100%float
        (world_of (0 :: replicate 9 100)%float)
      = (Raise ZeroDivisionError, world_of (0 :: replicate 9 100)%float))
  /\ (10 <= length (-100 :: 100 :: replicate 8 0)%float
      /\ @avg cpython_311 (-100 :: 100 :: replicate 8 0)%float = Some 0%float
      /\ @determine_risk_status cpython_311 1%positive 100%float
           (world_of (-100 :: 100 :: replicate 8 0)%float)
         = (Raise ZeroDivisionError, world_of (-100 :: 100 :: replicate 8 0)%float)).
Proof.
  split; (split; [vm_compute; lia|]); split; reflexivity.
Qed.

(** ** Zero denominators *)

Lemma ratio_zero a b : (b =? 0)%float = true -> ratio a b = None.
Proof. unfold ratio. by intros ->. Qed.

Lemma fmap_result_raise {A B : Type} (f : A -> B) (r : result A) e :
  f <$> r = Raise e -> r = Raise e.
Proof.
  unfold fmap, result_fmap.
  destruct r; intros Heq; [discriminate Heq | by injection Heq as ->].
Qed.

(** The claim of C6 fails: with five premiums of 0 the first-half average is
    0 and the trend classifier raises instead of answering Flat; with ten
    premiums of 0 both the overall average and the premium ten polls ago are
    0 and the risk classifier raises instead of answering Neutral. *)
Lemma zero_denominator_counterexample :
  @avg cpython_311 (take (5 / 2) (last_n 5 (replicate 5 0%float))) = Some 0%float
  /\ (@determine_trend cpython_311 1%positive 5 (world_of (replicate 5 0%float))).1
     = Raise ZeroDivisionError
  /\ (@determine_trend cpython_311 1%positive 5 (world_of (replicate 5 0%float))).1
     <> Ok Flat
  /\ @avg cpython_311 (replicate 10 0%float) = Some 0%float
  /\ replicate 10 0%float !! (10 - 10) = Some 0%float
  /\ (@determine_risk_status cpython_311 1%positive 0%float
        (world_of (replicate 10 0%float))).1
     = Raise ZeroDivisionError
  /\ forall icon message,
       (@determine_risk_status cpython_311 1%positive 0%float
          (world_of (replicate 10 0%float))).1
       <> Ok (Neutral, icon, message).
Proof.
  split; [reflexivity|]. split; [reflexivity|]. split.
  { intros Heq. vm_compute in Heq. discriminate Heq. }
  split; [reflexivity|]. split; [reflexivity|]. split; [reflexivity|].
  intros icon message Heq. vm_compute in Heq. discriminate Heq.
Qed.

(** C6, as amended.  A zero denominator is not guarded: when the first-half
    average is zero the trend classifier raises [ZeroDivisionError], and when
    the overall average or the premium ten polls ago is zero the risk
    classifier raises [ZeroDivisionError]; neither returns a label, and the
    history is left as it was. *)
Theorem zero_denominator_raises `{PyRuntime} (w : world) (history : loc)
    (items : list Entry.t) :
  heap w !! history = Some items ->
  (forall (window : nat) (avg_first : float),
      1 <= window <= length items ->
      avg (take (window / 2) (last_n window (Entry.combined <$> items))) = Some avg_first ->
      (avg_first =? 0)%float = true ->
      determine_trend history (Z.of_nat window) w = (Raise ZeroDivisionError, w))
  /\ (forall (current_premium average : float),
      10 <= length items ->
      avg (Entry.combined <$> items) = Some average ->
      (average =? 0)%float = true ->
      determine_risk_status history current_premium w = (Raise ZeroDivisionError, w))
  /\ (forall (current_premium ten_ago : float),
      10 <= length items ->
      (Entry.combined <$> items) !! (length items - 10) = Some ten_ago ->
      (ten_ago =? 0)%float = true ->
      determine_risk_status history current_premium w = (Raise ZeroDivisionError, w)).
Proof.
  intros Hl.
  assert (Hrisk : forall current_premium,
             10 <= length items ->
             risk_spec (Entry.combined <$> items) current_premium = None ->
             determine_risk_status history current_premium w
             = (Raise ZeroDivisionError, w)).
  { intros current_premium Hlen Hnone.
    destruct (determine_risk_status_refines w history items current_premium Hl)
      as [Hw Hr].
    rewrite Hnone in Hr. apply fmap_result_raise in Hr.
    destruct (determine_risk_status history current_premium w) as [r w'].
    simpl in *. by subst. }
  split; [|split].
  - intros window avg_first [Hw1 Hw2] Havg Hzero.
    rewrite (determine_trend_refines w history items window Hl Hw1).
    unfold trend_spec. rewrite length_fmap.
    destruct (decide (length items < window)); [lia|].
    cbn zeta. rewrite Havg. cbn [mbind option_bind].
    destruct (avg (drop _ _)) as [avg_second|]; cbn [mbind option_bind outcome]; [|done].
    unfold pct_change. by rewrite (ratio_zero _ _ Hzero).
  - intros current_premium average Hlen Havg Hzero. apply Hrisk; [done|].
    unfold risk_spec. rewrite length_fmap.
    destruct (decide (length items < 10)); [lia|].
    rewrite Havg. cbn [mbind option_bind].
    destruct (lowest _) as [lo|]; cbn [mbind option_bind]; [|done].
    destruct (highest _) as [hi|]; cbn [mbind option_bind]; [|done].
    by rewrite (ratio_zero _ _ Hzero).
  - intros current_premium ten_ago Hlen Hago Hzero. apply Hrisk; [done|].
    unfold risk_spec. rewrite length_fmap.
    destruct (decide (length items < 10)); [lia|].
    destruct (avg _) as [average|]; cbn [mbind option_bind]; [|done].
    destruct (lowest _) as [lo|]; cbn [mbind option_bind]; [|done].
    destruct (highest _) as [hi|]; cbn [mbind option_bind]; [|done].
    destruct (ratio (hi - lo) average) as [spread|]; cbn [mbind option_bind]; [|done].
    rewrite Hago. cbn [mbind option_bind].
    unfold pct_change. by rewrite (ratio_zero _ _ Hzero).
Qed.

Lemma zero_denominator_raises_witness :
  heap (world_of (replicate 5 0%float)) !! 1%positive
  = Some (entry_of <$> replicate 5 0%float)
  /\ 1 <= 5 <= length (entry_of <$> replicate 5 0%float)
  /\ @avg cpython_311
       (take (5 / 2) (last_n 5 (Entry.combined <$> (entry_of <$> replicate 5 0%float))))
     = Some 0%float
  /\ (0 =? 0)%float = true
  /\ @determine_trend cpython_311 1%positive (Z.of_nat 5) (world_of (replicate 5 0%float))
     = (Raise ZeroDivisionError, world_of (replicate 5 0%float)).
Proof.
  split; [reflexivity|]. split; [vm_compute; lia|].
  split; [reflexivity|]. split; [reflexivity|].
  apply (proj1 (@zero_denominator_raises cpython_311 (world_of (replicate 5 0%float))
                  1%positive (entry_of <$> replicate 5 0%float) eq_refl)
           5 0%float); [vm_compute; lia | reflexivity | reflexivity].
Defined.

(** ** Per-leg lookup with a missing mark price *)

(** The claim of C9 taken for every snapshot that contains such a record
    fails when an earlier record matches too: the first match decides, and
    here it carries the price 5. *)
Lemma unpriced_duplicate_counterexample :
  (exists option,
      option ∈ duplicate_call_chain
      /\ leg_matches 75000 "C" option = true
      /\ mark_price option = None)
  /\ get_option_price duplicate_call_chain 75000 "C" = Some 5%float
  /\ get_option_price duplicate_call_chain 75000 "C" <> Some 0%float.
Proof.
  split.
  { exists (quote "C-BTC-75000-270326" 75000 None).
    split; [|split; reflexivity]. unfold duplicate_call_chain. set_solver. }
  split; [reflexivity|].
  intros Heq.
  apply (f_equal (fun o => match o with
                           | Some x => (x =? 0)%float
                           | None => false
                           end)) in Heq.
  vm_compute in Heq. discriminate Heq.
Qed.

Lemma get_option_price_unpriced option_chain strike option_type :
  first_match_unpriced option_chain strike option_type = true ->
  get_option_price option_chain strike option_type = Some 0%float.
Proof.
  rewrite get_option_price_find. unfold first_match_unpriced.
  destruct (List.find _ _) as [[? ? [price|] ?]|]; simpl; [done|done|done].
Qed.

(** C9, as amended.  When the first record that matches the requested
    strike and option-kind prefix has no mark-price field, the per-leg lookup
    returns 0.0 instead of signalling a missing leg; and when this is so for
    all four legs, extraction succeeds with four legs, both straddles and the
    combined premium at 0.0. *)
Theorem missing_mark_price_is_zero (option_chain : list ticker) :
  (forall strike option_type,
      first_match_unpriced option_chain strike option_type = true ->
      get_option_price option_chain strike option_type = Some 0%float)
  /\ (forall strike_1 strike_2,
      first_match_unpriced option_chain strike_1 "C" = true ->
      first_match_unpriced option_chain strike_1 "P" = true ->
      first_match_unpriced option_chain strike_2 "C" = true ->
      first_match_unpriced option_chain strike_2 "P" = true ->
      calculate_straddle_premiums option_chain strike_1 strike_2
      = Some {| Premiums.straddle_a := 0;
                Premiums.straddle_b := 0;
                Premiums.combined := 0;
                Premiums.spot := get_spot_price option_chain;
                Premiums.call_1 := 0;
                Premiums.put_1 := 0;
                Premiums.call_2 := 0;
                Premiums.put_2 := 0 |}).
Proof.
  split; [apply get_option_price_unpriced|].
  intros strike_1 strike_2 Hc1 Hp1 Hc2 Hp2. unfold calculate_straddle_premiums.
  by rewrite !get_option_price_unpriced.
Qed.

Lemma missing_mark_price_is_zero_witness :
  first_match_unpriced unpriced_chain STRIKE_1 "C" = true
  /\ first_match_unpriced unpriced_chain STRIKE_1 "P" = true
  /\ first_match_unpriced unpriced_chain STRIKE_2 "C" = true
  /\ first_match_unpriced unpriced_chain STRIKE_2 "P" = true
  /\ Premiums.combined <$> calculate_straddle_premiums unpriced_chain STRIKE_1 STRIKE_2
     = Some 0%float.
Proof.
  repeat (split; [reflexivity|]).
  rewrite (proj2 (missing_mark_price_is_zero unpriced_chain) STRIKE_1 STRIKE_2);
    reflexivity.
Defined.

(** ** The refresh cycle *)

Lemma history_is_items w items : history_is w items -> history_items w = items.
Proof. unfold history_is, history_items. by intros ->. Qed.

Lemma last_n_all {A : Type} (n : nat) (l : list A) : length l <= n -> last_n n l = l.
Proof. intros Hn. unfold last_n. by replace (length l - n) with 0 by lia. Qed.

Lemma length_last_n_le {A : Type} (n : nat) (l : list A) : length (last_n n l) <= n.
Proof. unfold last_n. rewrite length_drop. lia. Qed.

Lemma last_n_app_last_n {A : Type} (n : nat) (a b : list A) :
  last_n n (last_n n a ++ b) = last_n n (a ++ b).
Proof.
  unfold last_n. rewrite !length_app, length_drop.
  set (j := length a - n).
  replace (a ++ b) with (take j a ++ (drop j a ++ b))
    by (by rewrite app_assoc, take_drop).
  replace (length a + length b - n)
    with (length (take j a) + (length a - j + length b - n))
    by (rewrite length_take; lia).
  by rewrite drop_app_add.
Qed.

Lemma clear_history_button_effect w items pressed :
  history_is w items ->
  exists w', clear_history_button pressed w = (Ok (), w')
             /\ history_is w' (if pressed then [] else items).
Proof.
  intros Hw. destruct pressed; simpl.
  - eexists. split; [reflexivity|]. unfold history_is. simpl.
    apply lookup_insert_eq.
  - by exists w.
Qed.

Lemma update_history_effect w items timestamp premiums :
  history_is w items ->
  exists w', update_history timestamp premiums w = (Ok (), w')
             /\ history_is w' (last_n 500 (items ++ [history_entry timestamp premiums])).
Proof.
  intros Hw. unfold history_is in Hw. unfold update_history.
  set (e := history_entry timestamp premiums).
  set (w1 := {| heap := <[premium_history (session w) := items ++ [e]]> (heap w);
                session := session w |}).
  assert (Hw1 : heap w1 !! premium_history (session w1) = Some (items ++ [e])).
  { simpl. apply lookup_insert_eq. }
  assert (Happend : obj_append (premium_history (session w)) e w = (Ok (), w1)).
  { unfold obj_append. by rewrite Hw. }
  unfold mbind at 1, script_bind at 1, get_premium_history at 1. cbn beta iota.
  rewrite (bind_ok _ _ _ _ _ Happend).
  unfold mbind at 1, script_bind at 1, get_premium_history at 1. cbn beta iota.
  rewrite (bind_ok _ _ _ _ _ (obj_len_bound _ _ _ Hw1)).
  unfold py_len. destruct (Z.ltb_spec 500 (Z.of_nat (length (items ++ [e])))) as [Hlt|Hge].
  - eexists. split.
    + unfold mbind at 1, script_bind at 1.
      rewrite (bind_ok _ _ _ _ _ (obj_slice_from_bound _ _ _ (-500) Hw1)).
      reflexivity.
    + unfold history_is. simpl. rewrite lookup_insert_eq.
      change (-500)%Z with (- Z.of_nat 500)%Z.
      by rewrite py_slice_from_last_n by lia.
  - eexists. split; [reflexivity|].
    unfold history_is. simpl. rewrite lookup_insert_eq.
    by rewrite last_n_all by lia.
Qed.

Lemma classify_readonly `{PyRuntime} premiums : readonly (classify premiums).
Proof.
  unfold classify.
  repeat first [ apply determine_trend_readonly
               | apply determine_risk_status_readonly
               | readonly_step ].
Qed.

(** What one run does to the history. *)
Lemma main_effect `{PyRuntime} w items p :
  history_is w items ->
  history_is (main (clear_pressed p) (fetched_chain p) (clock p) w).2
             (history_after p items).
Proof.
  intros Hw. unfold main, history_after, poll_entry.
  destruct (clear_history_button_effect w items (clear_pressed p) Hw) as (w1 & E1 & Hw1).
  rewrite (bind_ok _ _ _ _ _ E1).
  destruct (fetched_chain p) as [[|option rest]|]; simpl; [done| |done].
  destruct (calculate_straddle_premiums (option :: rest) STRIKE_1 STRIKE_2)
    as [premiums|]; simpl; [|done].
  destruct (update_history_effect w1 _ (clock p) premiums Hw1) as (w2 & E2 & Hw2).
  rewrite (bind_ok _ _ _ _ _ E2).
  pose proof (classify_readonly premiums w2) as Hc.
  unfold mbind, script_bind.
  destruct (classify premiums w2) as [[labels|e] w3]; simpl in *; by subst w3.
Qed.

(** C5.  When one of the four legs is not found, extraction returns no
    result at all; and a run of the script on such a snapshot (no "Clear
    History" press) shows an error banner and leaves the whole session, the
    history with it, exactly as it was: nothing is appended. *)
Theorem missing_leg_skips_cycle `{PyRuntime} (option_chain : list ticker) :
  (forall strike_1 strike_2,
      four_legs_located option_chain strike_1 strike_2 = false ->
      calculate_straddle_premiums option_chain strike_1 strike_2 = None)
  /\ (four_legs_located option_chain STRIKE_1 STRIKE_2 = false ->
      forall (w : world) (now : datetime),
        main false (Some option_chain) now w
        = (Ok (match option_chain with [] => FetchError | _ => PremiumsError end), w)
        /\ length (history_items (main false (Some option_chain) now w).2)
           = length (history_items w)).
Proof.
  assert (Hnone : forall strike_1 strike_2,
             four_legs_located option_chain strike_1 strike_2 = false ->
             calculate_straddle_premiums option_chain strike_1 strike_2 = None).
  { intros strike_1 strike_2. unfold four_legs_located.
    rewrite !andb_false_iff. unfold calculate_straddle_premiums.
    intros [[[Hl|Hl]|Hl]|Hl]; rewrite (get_option_price_not_located _ _ _ Hl);
      by repeat case_match. }
  split; [done|].
  intros Hmiss w now.
  assert (Hmain : main false (Some option_chain) now w
                  = (Ok (match option_chain with [] => FetchError | _ => PremiumsError end),
                     w)).
  { unfold main. rewrite (bind_ok _ _ w () w) by reflexivity.
    destruct option_chain as [|option rest]; [done|].
    by rewrite (Hnone _ _ Hmiss). }
  by rewrite Hmain.
Qed.

Lemma missing_leg_skips_cycle_witness :
  four_legs_located three_leg_chain STRIKE_1 STRIKE_2 = false
  /\ calculate_straddle_premiums three_leg_chain STRIKE_1 STRIKE_2 = None
  /\ @main cpython_311 false (Some three_leg_chain) 0%Z (world_of [100; 90]%float)
     = (Ok PremiumsError, world_of [100; 90]%float).
Proof.
  split; [reflexivity|]. split.
  - apply (proj1 (@missing_leg_skips_cycle cpython_311 three_leg_chain)). reflexivity.
  - apply (proj2 (@missing_leg_skips_cycle cpython_311 three_leg_chain)). reflexivity.
Defined.

(** ** The capped history *)

Lemma history_after_length p items :
  length items <= 500 -> length (history_after p items) <= 500.
Proof.
  intros Hlen. unfold history_after.
  destruct (poll_entry p); [apply length_last_n_le|].
  destruct (clear_pressed p); simpl; lia.
Qed.

Lemma since_last_clear_none polls :
  existsb clear_pressed polls = false -> since_last_clear polls = polls.
Proof.
  destruct polls as [|p rest]; simpl; [done|].
  rewrite orb_false_iff. by intros [_ ->].
Qed.

Lemma run_session_cons `{PyRuntime} p rest w :
  (run_session (p :: rest) w).2
  = (run_session rest (main (clear_pressed p) (fetched_chain p) (clock p) w).2).2.
Proof.
  simpl. destruct (main _ _ _ w) as [r w']. simpl.
  by destruct (run_session rest w') as [rs w''].
Qed.

(** The history a session leaves: the last 500 of what it found (dropped at
    a press of "Clear History") followed by the entries appended since. *)
Lemma run_session_history `{PyRuntime} polls : forall w items,
  history_is w items ->
  length items <= 500 ->
  history_is (run_session polls w).2
    (last_n 500 ((if existsb clear_pressed polls then [] else items)
                 ++ omap poll_entry (since_last_clear polls))).
Proof.
  induction polls as [|p rest IH]; intros w items Hw Hlen.
  - simpl. rewrite app_nil_r. by rewrite last_n_all.
  - rewrite run_session_cons.
    pose proof (main_effect w items p Hw) as Hw1.
    pose proof (history_after_length p items Hlen) as Hlen1.
    specialize (IH _ _ Hw1 Hlen1). simpl.
    destruct (existsb clear_pressed rest) eqn:Hrest.
    + by rewrite orb_true_r.
    + rewrite orb_false_r. rewrite (since_last_clear_none _ Hrest) in IH.
      simpl. unfold history_after in IH.
      destruct (poll_entry p) as [e|].
      * rewrite last_n_app_last_n in IH. by rewrite <- app_assoc in IH.
      * done.
Qed.

(** C2.  Whatever the runs of a session, the history it leaves has at most
    500 entries, and they are the last 500 (all, when there are fewer) of the
    entries appended since the last press of "Clear History", in the order
    they were appended: the oldest are the ones dropped.  Without a press,
    they are the last 500 of all appended entries, exactly 500 once that many
    were appended. *)
Theorem history_capped `{PyRuntime} (polls : list poll) :
  length (history_items (run_session polls initial_world).2) <= 500
  /\ history_items (run_session polls initial_world).2
     = last_n 500 (omap poll_entry (since_last_clear polls))
  /\ (existsb clear_pressed polls = false ->
      history_items (run_session polls initial_world).2
      = last_n 500 (omap poll_entry polls)
      /\ (500 <= length (omap poll_entry polls) ->
          length (history_items (run_session polls initial_world).2) = 500)).
Proof.
  assert (Hinit : history_is initial_world []) by reflexivity.
  pose proof (run_session_history polls initial_world [] Hinit ltac:(simpl; lia)) as Hrun.
  apply history_is_items in Hrun.
  replace ((if existsb clear_pressed polls then [] else [])
           ++ omap poll_entry (since_last_clear polls))
    with (omap poll_entry (since_last_clear polls)) in Hrun
    by (by destruct (existsb clear_pressed polls)).
  rewrite Hrun. split; [apply length_last_n_le|]. split; [done|].
  intros Hno. rewrite (since_last_clear_none _ Hno). split; [done|].
  intros Hmany. by apply length_last_n.
Qed.

Lemma history_capped_witness :
  existsb clear_pressed (steady_polls 501) = false
  /\ length (omap poll_entry (steady_polls 501)) = 501
  /\ Entry.timestamp
       <$> history_items (@run_session cpython_311 (steady_polls 501) initial_world).2
     = Z.of_nat <$> seq 1 500.
Proof.
  split; [vm_compute; reflexivity|]. split; [vm_compute; reflexivity|].
  destruct (@history_capped cpython_311 (steady_polls 501)) as (_ & _ & Hkept).
  destruct Hkept as [-> _]; vm_compute; reflexivity.
Defined.

(** ** End to end *)

Lemma run_session_snoc `{PyRuntime} polls p w :
  run_session (polls ++ [p]) w
  = let '(rs, w') := run_session polls w in
    let '(r, w'') := main (clear_pressed p) (fetched_chain p) (clock p) w' in
    (rs ++ [r], w'').
Proof.
  revert w. induction polls as [|q rest IH]; intros w; simpl.
  - by destruct (main _ _ _ w) as [r w'].
  - destruct (main (clear_pressed q) _ _ w) as [r w']. rewrite IH.
    destruct (run_session rest w') as [rs w''].
    by destruct (main (clear_pressed p) _ _ w'') as [r' w'''].
Qed.

Lemma appends_premium_entries polls premiums :
  Forall2 appends_premium polls premiums ->
  existsb clear_pressed polls = false
  /\ Entry.combined <$> omap poll_entry polls = premiums.
Proof.
  induction 1 as [|p c polls premiums [Hclear Hentry] _ [IH1 IH2]]; simpl; [done|].
  rewrite Hclear, IH1. split; [done|].
  destruct (poll_entry p) as [e|]; simpl in Hentry; [|done].
  injection Hentry as <-. rewrite fmap_cons. by f_equal.
Qed.

(** The classifications of a run, from the formulas over the history. *)
Lemma classify_result `{PyRuntime} w items premiums trend risk_verdict :
  history_is w items ->
  trend_spec (Entry.combined <$> items) 5 = Some trend ->
  risk_spec (Entry.combined <$> items) (Premiums.combined premiums) = Some risk_verdict ->
  exists risk, classify premiums w = (Ok (trend, risk), w) /\ verdict risk = risk_verdict.
Proof.
  intros Hw Htrend Hrisk. unfold history_is in Hw. unfold classify.
  unfold mbind at 1, script_bind at 1, get_premium_history at 1. cbn beta iota.
  assert (Ht : determine_trend (premium_history (session w)) 5 w = (Ok trend, w)).
  { change 5%Z with (Z.of_nat 5).
    rewrite (determine_trend_refines w _ items 5 Hw) by lia. by rewrite Htrend. }
  rewrite (bind_ok _ _ _ _ _ Ht).
  unfold mbind at 1, script_bind at 1, get_premium_history at 1. cbn beta iota.
  destruct (determine_risk_status_refines w _ items (Premiums.combined premiums) Hw)
    as [Hsame Hverdict].
  rewrite Hrisk in Hverdict. unfold mbind, script_bind.
  destruct (determine_risk_status _ _ w) as [[risk|e] w']; simpl in *; [|done].
  injection Hverdict as Hverdict. subst w'. by exists risk.
Qed.

(** A run that appends: what it shows and the history it leaves. *)
Lemma main_dashboard `{PyRuntime} w items p e trend risk_verdict :
  history_is w items ->
  clear_pressed p = false ->
  poll_entry p = Some e ->
  trend_spec (Entry.combined <$> last_n 500 (items ++ [e])) 5 = Some trend ->
  risk_spec (Entry.combined <$> last_n 500 (items ++ [e])) (Entry.combined e)
  = Some risk_verdict ->
  exists premiums risk,
    (main (clear_pressed p) (fetched_chain p) (clock p) w).1
    = Ok (Dashboard premiums trend risk)
    /\ verdict risk = risk_verdict.
Proof.
  intros Hw Hclear Hentry Htrend Hrisk. unfold poll_entry in Hentry.
  rewrite Hclear. unfold main.
  rewrite (bind_ok _ _ w () w) by reflexivity.
  destruct (fetched_chain p) as [option_chain|]; [|done].
  destruct (calculate_straddle_premiums option_chain STRIKE_1 STRIKE_2)
    as [premiums|] eqn:Hcalc; [|done].
  simpl in Hentry. injection Hentry as <-.
  destruct option_chain as [|option rest]; [discriminate Hcalc|].
  destruct (update_history_effect w items (clock p) premiums Hw) as (w1 & E1 & Hw1).
  rewrite (bind_ok _ _ _ _ _ E1).
  destruct (classify_result w1 _ premiums trend risk_verdict Hw1 Htrend Hrisk)
    as (risk & Hclassify & Hverdict).
  rewrite (bind_ok _ _ _ _ _ Hclassify). by exists premiums, risk.
Qed.

Lemma falling_session `{PyRuntime} (polls : list poll) :
  trend_spec falling_ramp 5 = Some Falling ->
  risk_spec falling_ramp 70
  = Some (Safe, "Premium compressing - Theta decay working well"%string) ->
  Forall2 appends_premium polls falling_ramp ->
  exists premiums risk,
    last (run_session polls initial_world).1
    = Some (Ok (Dashboard premiums Falling risk))
    /\ verdict risk = (Safe, "Premium compressing - Theta decay working well"%string).
Proof.
  intros Htrend Hrisk Hpolls.
  assert (Hsplit : falling_ramp = take 14 falling_ramp ++ [70%float])
    by (vm_compute; reflexivity).
  rewrite Hsplit in Hpolls.
  apply Forall2_app_inv_r in Hpolls as (front & back & Hfront & Hback & ->).
  apply Forall2_cons_inv_r in Hback as (p & back' & [Hclear Hentry] & Hnil & ->).
  apply Forall2_nil_inv_r in Hnil as ->.
  destruct (appends_premium_entries _ _ Hfront) as [Hnone Hcombined].
  assert (Hinit : history_is initial_world []) by reflexivity.
  pose proof (run_session_history front initial_world [] Hinit ltac:(simpl; lia)) as Hw.
  rewrite Hnone, (since_last_clear_none _ Hnone), app_nil_l in Hw.
  rewrite run_session_snoc.
  destruct (run_session front initial_world) as [rs w]. simpl in Hw.
  destruct (poll_entry p) as [e|] eqn:He; [|done].
  simpl in Hentry. injection Hentry as Hlast.
  assert (Hramp : Entry.combined <$> last_n 500 (last_n 500 (omap poll_entry front) ++ [e])
                  = falling_ramp).
  { rewrite fmap_last_n, fmap_app, fmap_last_n, Hcombined. simpl. rewrite Hlast.
    vm_compute. reflexivity. }
  destruct (main_dashboard w _ p e Falling
              (Safe, "Premium compressing - Theta decay working well"%string)
              Hw Hclear He)
    as (premiums & risk & Hshown & Hverdict).
  { by rewrite Hramp. }
  { by rewrite Hramp, Hlast. }
  destruct (main (clear_pressed p) (fetched_chain p) (clock p) w) as [r w'].
  simpl in Hshown. subst r. exists premiums, risk. split; [|done].
  simpl. apply last_snoc.
Qed.

(** C7.  The fifteen premiums [100 - i * 30 / 14] start at 100, end at 70
    and fall strictly.  Whatever fifteen snapshots have these combined
    premiums, a session that polls them in turn (appending, then classifying,
    on every run) shows on its last run the trend Falling and the risk Safe,
    "Premium compressing - Theta decay working well", under either summation
    of the interpreter. *)
Theorem falling_premiums_end_to_end (polls : list poll) :
  Forall2 appends_premium polls falling_ramp ->
  (length falling_ramp = 15
   /\ head falling_ramp = Some 100%float
   /\ last falling_ramp = Some 70%float
   /\ strictly_decreasing falling_ramp = true)
  /\ (exists premiums risk,
        last (@run_session cpython_311 polls initial_world).1
        = Some (Ok (Dashboard premiums Falling risk))
        /\ verdict risk = (Safe, "Premium compressing - Theta decay working well"%string))
  /\ (exists premiums risk,
        last (@run_session cpython_312 polls initial_world).1
        = Some (Ok (Dashboard premiums Falling risk))
        /\ verdict risk = (Safe, "Premium compressing - Theta decay working well"%string)).
Proof.
  intros Hpolls. split; [|split].
  - repeat split; vm_compute; reflexivity.
  - apply (@falling_session cpython_311); [vm_compute; reflexivity .. | done].
  - apply (@falling_session cpython_312); [vm_compute; reflexivity .. | done].
Qed.

Lemma falling_premiums_end_to_end_witness :
  Forall2 appends_premium falling_polls falling_ramp
  /\ exists premiums risk,
       last (@run_session cpython_311 falling_polls initial_world).1
       = Some (Ok (Dashboard premiums Falling risk))
       /\ verdict risk = (Safe, "Premium compressing - Theta decay working well"%string).
Proof.
  assert (Hpolls : Forall2 appends_premium falling_polls falling_ramp).
  { unfold falling_polls, falling_ramp. simpl.
    repeat (constructor; [split; vm_compute; reflexivity|]). constructor. }
  split; [exact Hpolls|].
  exact (proj1 (proj2 (falling_premiums_end_to_end falling_polls Hpolls))).
Defined.

(** * Further properties *)

(** ** Per-leg lookup *)

(** X1.  The lookup over two chains put end to end is the lookup in the
    first, and in the second only when the first has no match: records after
    the first match never change the answer, and records that do not match
    can be put in front without changing it. *)
Theorem get_option_price_app (chain_1 chain_2 : list ticker) (strike : float)
    (option_type : string) :
  get_option_price (chain_1 ++ chain_2) strike option_type
  = match get_option_price chain_1 strike option_type with
    | Some price => Some price
    | None => get_option_price chain_2 strike option_type
    end.
Proof.
  rewrite !get_option_price_loop_eq.
  induction chain_1 as [|option rest IH]; simpl; [done|].
  by destruct (leg_matches strike option_type option).
Qed.

(** X2.  The lookup signals a missing leg exactly when no record of the
    snapshot has the strike and the option-kind prefix; an empty snapshot has
    no leg. *)
Theorem get_option_price_none_iff (option_chain : list ticker) (strike : float)
    (option_type : string) :
  (get_option_price option_chain strike option_type = None
   <-> forall option, option ∈ option_chain ->
                      leg_matches strike option_type option = false)
  /\ get_option_price [] strike option_type = None.
Proof.
  split; [|done]. rewrite get_option_price_find.
  induction option_chain as [|option rest IH]; simpl.
  - split; [|done]. intros _ option Hin. by apply elem_of_nil in Hin.
  - destruct (leg_matches strike option_type option) eqn:Hm; simpl.
    + split; [done|]. intros Hall. specialize (Hall option (list_elem_of_here _ _)).
      congruence.
    + rewrite IH. split.
      * intros Hall o Hin. apply elem_of_cons in Hin as [->|Hin]; auto.
      * intros Hall o Hin. apply Hall. by apply list_elem_of_further.
Qed.

(** A record is a call or a put, never both: the two prefixes exclude each
    other. *)
Lemma call_put_prefix_exclusive (s : string) :
  String.prefix "C" s = true -> String.prefix "P" s = false.
Proof.
  intros Hc. apply String.prefix_correct in Hc.
  destruct s as [|a s]; [discriminate Hc|].
  cbn in Hc. injection Hc as -> _. reflexivity.
Qed.

(** X3.  No record serves as both legs of a straddle: a record that matches
    a strike as a call does not match it as a put, so when both lookups
    succeed the call and the put were read from two different records of the
    snapshot. *)
Theorem call_and_put_from_different_records (option_chain : list ticker)
    (strike : float) (call put : ticker) :
  List.find (leg_matches strike "C") option_chain = Some call ->
  List.find (leg_matches strike "P") option_chain = Some put ->
  call <> put
  /\ leg_matches strike "P" call = false
  /\ leg_matches strike "C" put = false.
Proof.
  intros Hc Hp.
  apply find_some in Hc as [_ Hc]. apply find_some in Hp as [_ Hp].
  assert (Hx : forall o, leg_matches strike "C" o = true ->
                         leg_matches strike "P" o = false).
  { intros o. unfold leg_matches. rewrite andb_true_iff. intros [-> Hpre].
    simpl. by apply call_put_prefix_exclusive. }
  split; [|split].
  - intros ->. rewrite (Hx _ Hc) in Hp. discriminate Hp.
  - by apply Hx.
  - destruct (leg_matches strike "C" put) eqn:E; [|done].
    rewrite (Hx _ E) in Hp. discriminate Hp.
Qed.

Lemma call_and_put_from_different_records_witness :
  List.find (leg_matches STRIKE_1 "C") (snapshot 100)
  = Some (quote "C-BTC-75000-270326" 75000 (Some 25%float))
  /\ List.find (leg_matches STRIKE_1 "P") (snapshot 100)
     = Some (quote "P-BTC-75000-270326" 75000 (Some 25%float))
  /\ quote "C-BTC-75000-270326" 75000 (Some 25%float)
     <> quote "P-BTC-75000-270326" 75000 (Some 25%float).
Proof.
  split; [reflexivity|]. split; [reflexivity|].
  exact (proj1 (call_and_put_from_different_records (snapshot 100) STRIKE_1 _ _
                  eq_refl eq_refl)).
Defined.

(** X4.  Only the records that match a leg bear on its price: dropping from
    the snapshot any records that do not match the leg leaves the lookup
    unchanged. *)
Theorem get_option_price_filter (keep : ticker -> bool) (option_chain : list ticker)
    (strike : float) (option_type : string) :
  (forall option, leg_matches strike option_type option = true -> keep option = true) ->
  get_option_price (List.filter keep option_chain) strike option_type
  = get_option_price option_chain strike option_type.
Proof.
  intros Hkeep. rewrite !get_option_price_loop_eq.
  induction option_chain as [|option rest IH]; simpl; [done|].
  destruct (leg_matches strike option_type option) eqn:Hm.
  - rewrite (Hkeep _ Hm). simpl. by rewrite Hm.
  - destruct (keep option); simpl; [by rewrite Hm|done].
Qed.

Lemma get_option_price_filter_witness :
  (forall option, leg_matches STRIKE_2 "P" option = true ->
                  leg_matches STRIKE_2 "P" option = true)
  /\ get_option_price (List.filter (leg_matches STRIKE_2 "P") (snapshot 100)) STRIKE_2 "P"
     = Some 25%float.
Proof.
  split; [auto|].
  rewrite (get_option_price_filter (leg_matches STRIKE_2 "P") (snapshot 100)
             STRIKE_2 "P" (fun _ H => H)).
  reflexivity.
Defined.

(** ** Premium extraction: the spot price *)

(** X5.  Whenever extraction succeeds the spot price is there: the snapshot
    is not empty and the record's spot is the spot-price field of its first
    record, 0.0 when that record has none.  ([main] formats the spot as a
    number, which needs it.) *)
Theorem spot_defined_on_success (option_chain : list ticker) (strike_1 strike_2 : float)
    (premiums : Premiums.t) :
  calculate_straddle_premiums option_chain strike_1 strike_2 = Some premiums ->
  exists first rest,
    option_chain = first :: rest
    /\ Premiums.spot premiums = Some (default 0%float (spot_price first))
    /\ get_spot_price option_chain = Premiums.spot premiums.
Proof.
  intros Hcalc. destruct option_chain as [|first rest]; [discriminate Hcalc|].
  exists first, rest. unfold calculate_straddle_premiums in Hcalc.
  repeat case_match; try discriminate Hcalc.
  injection Hcalc as <-. by simpl.
Qed.

Lemma spot_defined_on_success_witness :
  exists premiums,
    calculate_straddle_premiums unpriced_chain STRIKE_1 STRIKE_2 = Some premiums
    /\ Premiums.spot premiums = Some 77000%float.
Proof.
  eexists. split; [reflexivity|].
  destruct (spot_defined_on_success unpriced_chain STRIKE_1 STRIKE_2 _ eq_refl)
    as (first & rest & Hchain & Hspot & _).
  injection Hchain as <- _. exact Hspot.
Defined.

(** ** What the classifiers read *)

(** X6.  The trend is decided by the last [window] combined premiums alone:
    two histories, of whatever lengths and in whatever sessions, whose last
    [window] combined premiums agree get the same answer (the same label, or
    the same exception), whatever their older entries, timestamps, spot
    prices and sub-totals. *)
Theorem trend_reads_last_window `{PyRuntime} (w1 w2 : world) (history1 history2 : loc)
    (items1 items2 : list Entry.t) (window : nat) :
  heap w1 !! history1 = Some items1 ->
  heap w2 !! history2 = Some items2 ->
  1 <= window ->
  window <= length items1 ->
  window <= length items2 ->
  last_n window (Entry.combined <$> items1) = last_n window (Entry.combined <$> items2) ->
  (determine_trend history1 (Z.of_nat window) w1).1
  = (determine_trend history2 (Z.of_nat window) w2).1.
Proof.
  intros Hl1 Hl2 Hw Hlen1 Hlen2 Hlast.
  rewrite (determine_trend_refines w1 history1 items1 window Hl1 Hw).
  rewrite (determine_trend_refines w2 history2 items2 window Hl2 Hw).
  unfold trend_spec. rewrite !length_fmap.
  destruct (decide (length items1 < window)); [lia|].
  destruct (decide (length items2 < window)); [lia|].
  cbn zeta. by rewrite Hlast.
Qed.

Lemma trend_reads_last_window_witness :
  heap (world_of [1; 2; 3; 100; 100; 100; 90; 80]%float) !! 1%positive
  = Some (entry_of <$> [1; 2; 3; 100; 100; 100; 90; 80]%float)
  /\ heap (world_of [100; 100; 100; 90; 80]%float) !! 1%positive
     = Some (entry_of <$> [100; 100; 100; 90; 80]%float)
  /\ (@determine_trend cpython_311 1%positive (Z.of_nat 5)
        (world_of [1; 2; 3; 100; 100; 100; 90; 80]%float)).1
     = (@determine_trend cpython_311 1%positive (Z.of_nat 5)
          (world_of [100; 100; 100; 90; 80]%float)).1.
Proof.
  split; [reflexivity|]. split; [reflexivity|].
  apply (@trend_reads_last_window cpython_311 _ _ 1%positive 1%positive
           (entry_of <$> [1; 2; 3; 100; 100; 100; 90; 80]%float)
           (entry_of <$> [100; 100; 100; 90; 80]%float) 5);
    try reflexivity; vm_compute; lia.
Defined.

Lemma world_independent_ret {A : Type} (a : A) : world_independent (mret a).
Proof. by intros w1 w2. Qed.

Lemma world_independent_lift {A : Type} (r : result A) : world_independent (lift r).
Proof. by intros w1 w2. Qed.

Lemma world_independent_bind {A B : Type} (m : Script A) (k : A -> Script B) :
  world_independent m -> (forall a, world_independent (k a)) ->
  world_independent (m ≫= k).
Proof.
  intros Hm Hk w1 w2. unfold mbind, script_bind.
  specialize (Hm w1 w2).
  destruct (m w1) as [[a1|e1] w1'], (m w2) as [[a2|e2] w2']; simpl in *;
    try discriminate Hm.
  - injection Hm as ->. apply Hk.
  - by injection Hm as ->.
Qed.

Ltac world_independent_step :=
  first
    [ apply world_independent_ret
    | apply world_independent_lift
    | apply world_independent_bind; [| intros ?]
    | match goal with
      | |- world_independent (if ?b then _ else _) => destruct b
      end ].

(** X7.  The risk status is decided by the combined premiums of the history
    and the current premium alone: two histories with the same combined
    premiums, in whatever sessions, get the same status, icon and rationale
    (or the same exception), whatever their timestamps, spot prices and
    sub-totals. *)
Theorem risk_reads_combined_premiums `{PyRuntime} (w1 w2 : world)
    (history1 history2 : loc) (items1 items2 : list Entry.t) (current_premium : float) :
  heap w1 !! history1 = Some items1 ->
  heap w2 !! history2 = Some items2 ->
  Entry.combined <$> items1 = Entry.combined <$> items2 ->
  (determine_risk_status history1 current_premium w1).1
  = (determine_risk_status history2 current_premium w2).1.
Proof.
  intros Hl1 Hl2 Heq. unfold determine_risk_status.
  assert (Hlen : py_len items1 = py_len items2).
  { unfold py_len. by rewrite <- (length_fmap Entry.combined items1), Heq, length_fmap. }
  rewrite (bind_ok _ _ _ _ _ (obj_len_bound _ _ _ Hl1)).
  rewrite (bind_ok _ _ _ _ _ (obj_len_bound _ _ _ Hl2)).
  rewrite Hlen. destruct (py_len items2 <? 10)%Z; [done|].
  rewrite (bind_ok _ _ _ _ _ (load_bound _ _ _ Hl1)).
  rewrite (bind_ok _ _ _ _ _ (load_bound _ _ _ Hl2)).
  rewrite Heq.
  match goal with |- (?m w1).1 = (?m w2).1 => cut (world_independent m); [by auto|] end.
  repeat world_independent_step.
Qed.

Lemma risk_reads_combined_premiums_witness :
  heap (world_of (replicate 10 100%float)) !! 1%positive
  = Some (entry_of <$> replicate 10 100%float)
  /\ heap (world_with (stamped_entry 7%Z <$> replicate 10 100%float)) !! 1%positive
     = Some (stamped_entry 7%Z <$> replicate 10 100%float)
  /\ Entry.combined <$> (entry_of <$> replicate 10 100%float)
     = Entry.combined <$> (stamped_entry 7%Z <$> replicate 10 100%float)
  /\ (@determine_risk_status cpython_311 1%positive 112%float
        (world_of (replicate 10 100%float))).1
     = (@determine_risk_status cpython_311 1%positive 112%float
          (world_with (stamped_entry 7%Z <$> replicate 10 100%float))).1.
Proof.
  split; [reflexivity|]. split; [reflexivity|]. split; [reflexivity|].
  apply (@risk_reads_combined_premiums cpython_311 _ _ 1%positive 1%positive
           (entry_of <$> replicate 10 100%float)
           (stamped_entry 7%Z <$> replicate 10 100%float));
    reflexivity.
Defined.

(** ** What the classifiers answer *)

Lemma returns_ret {A : Type} (a : A) (P : A -> Prop) : P a -> returns (mret a) P.
Proof. intros HP w a' w' [= <- _]. exact HP. Qed.

Lemma returns_bind {A B : Type} (m : Script A) (k : A -> Script B) (P : B -> Prop) :
  (forall a, returns (k a) P) -> returns (m ≫= k) P.
Proof.
  intros Hk w b w'. unfold mbind, script_bind.
  destruct (m w) as [[a|e] w1]; [apply Hk | discriminate].
Qed.

(** X8.  Whatever the history and the current premium, a status the risk
    classifier returns is one of the six written in the code, and its icon
    goes with its label: green with Safe, red with Risky, white or yellow
    with Neutral. *)
Theorem risk_status_is_one_of_six `{PyRuntime} (w w' : world) (history : loc)
    (current_premium : float) (status : RiskLabel * RiskIcon * string) :
  determine_risk_status history current_premium w = (Ok status, w') ->
  status ∈ risk_statuses /\ icon_fits status.1.1 status.1.2.
Proof.
  revert w status w'.
  change (returns (determine_risk_status history current_premium)
            (fun status => status ∈ risk_statuses /\ icon_fits status.1.1 status.1.2)).
  unfold determine_risk_status.
  repeat first
    [ apply returns_bind; intros ?
    | match goal with |- returns (if ?b then _ else _) _ => destruct b end ];
    apply returns_ret; (split; [unfold risk_statuses; set_solver | simpl; auto]).
Qed.

Lemma risk_status_is_one_of_six_witness :
  @determine_risk_status cpython_311 1%positive 105.5%float
    (world_of (replicate 10 100%float))
  = (Ok (Neutral, YellowCircle, "Slight premium expansion - Monitor closely"%string),
     world_of (replicate 10 100%float))
  /\ (Neutral, YellowCircle, "Slight premium expansion - Monitor closely"%string)
     ∈ risk_statuses.
Proof.
  split; [reflexivity|].
  exact (proj1 (@risk_status_is_one_of_six cpython_311 _ _ 1%positive 105.5%float _
                  (eq_refl : @determine_risk_status cpython_311 1%positive 105.5%float
                               (world_of (replicate 10 100%float))
                             = (Ok (Neutral, YellowCircle,
                                    "Slight premium expansion - Monitor closely"%string),
                                world_of (replicate 10 100%float))))).
Defined.

Lemma outcome_raise {A : Type} (o : option A) (e : exn) :
  outcome o = Raise e -> e = ZeroDivisionError.
Proof. destruct o; simpl; [discriminate|]. by intros [= <-]. Qed.

Lemma py_truediv_raise (a b : float) (e : exn) :
  py_truediv a b = Raise e -> e = ZeroDivisionError.
Proof. unfold py_truediv. case_match; [by intros [= <-] | discriminate]. Qed.

Lemma py_truediv_int_raise (a : float) (n : Z) (e : exn) :
  py_truediv_int a n = Raise e -> e = ZeroDivisionError.
Proof. unfold py_truediv_int. case_match; [by intros [= <-] | discriminate]. Qed.

Lemma determine_trend_raise `{PyRuntime} (w : world) (history : loc)
    (items : list Entry.t) (window : Z) (e : exn) :
  heap w !! history = Some items ->
  (determine_trend history window w).1 = Raise e -> e = ZeroDivisionError.
Proof.
  intros Hl. unfold determine_trend.
  rewrite (bind_ok _ _ _ _ _ (obj_len_bound _ _ _ Hl)).
  destruct (py_len items <? window)%Z; [intros Hx; cbv in Hx; discriminate Hx|].
  rewrite (bind_ok _ _ _ _ _ (obj_slice_from_bound _ _ _ _ Hl)).
  do 3 (rewrite lift_bind;
        match goal with
        | |- context [match ?r with Ok _ => _ | Raise _ => _ end] =>
            let E := fresh "E" in
            destruct r as [?|?] eqn:E;
            [cbv beta iota
            |simpl; intros Hx;
             first [apply py_truediv_int_raise in E | apply py_truediv_raise in E];
             congruence]
        end).
  repeat case_match; intros Hx; discriminate Hx.
Qed.

Lemma determine_risk_status_raise `{PyRuntime} (w : world) (history : loc)
    (items : list Entry.t) (current_premium : float) (e : exn) :
  heap w !! history = Some items ->
  (determine_risk_status history current_premium w).1 = Raise e ->
  e = ZeroDivisionError.
Proof.
  intros Hl Hraise.
  destruct (determine_risk_status_refines w history items current_premium Hl)
    as [_ Hr].
  rewrite Hraise in Hr. symmetry in Hr. exact (outcome_raise _ _ Hr).
Qed.

(** X9.  Handed a list, the classifiers never fail on an index, on an empty
    [min] or [max], or in any other way than a division by zero: the length
    guards keep [premiums[-10]], [min] and [max] in range, and slices never
    raise.  This holds for every window, zero and negative ones too. *)
Theorem classifiers_raise_only_zero_division `{PyRuntime} (w : world) (history : loc)
    (items : list Entry.t) (window : Z) (current_premium : float) (e : exn) :
  heap w !! history = Some items ->
  ((determine_trend history window w).1 = Raise e -> e = ZeroDivisionError)
  /\ ((determine_risk_status history current_premium w).1 = Raise e ->
      e = ZeroDivisionError).
Proof.
  intros Hl. split.
  - by apply determine_trend_raise with items.
  - by apply determine_risk_status_raise with items.
Qed.

Lemma classifiers_raise_only_zero_division_witness :
  heap (world_of (replicate 5 0%float)) !! 1%positive
  = Some (entry_of <$> replicate 5 0%float)
  /\ (@determine_trend cpython_311 1%positive 5 (world_of (replicate 5 0%float))).1
     = Raise ZeroDivisionError
  /\ ZeroDivisionError = ZeroDivisionError.
Proof.
  split; [reflexivity|]. split; [reflexivity|].
  exact (proj1 (@classifiers_raise_only_zero_division cpython_311
                  (world_of (replicate 5 0%float)) 1%positive _ 5 0%float
                  ZeroDivisionError eq_refl) eq_refl).
Defined.

(** ** One run of the script, step by step *)

Lemma calculate_straddle_premiums_inv option_chain strike_1 strike_2 premiums :
  calculate_straddle_premiums option_chain strike_1 strike_2 = Some premiums ->
  exists first rest,
    option_chain = first :: rest
    /\ Premiums.combined premiums
       = (Premiums.straddle_a premiums + Premiums.straddle_b premiums)%float
    /\ Premiums.spot premiums = Some (default 0%float (spot_price first)).
Proof.
  intros Hcalc. destruct option_chain as [|first rest]; [discriminate Hcalc|].
  exists first, rest. unfold calculate_straddle_premiums in Hcalc.
  repeat case_match; try discriminate Hcalc.
  injection Hcalc as <-. by simpl.
Qed.

Lemma poll_entry_inv (p : poll) (e : Entry.t) :
  poll_entry p = Some e ->
  exists option_chain premiums,
    fetched_chain p = Some option_chain
    /\ calculate_straddle_premiums option_chain STRIKE_1 STRIKE_2 = Some premiums
    /\ e = history_entry (clock p) premiums.
Proof.
  unfold poll_entry. destruct (fetched_chain p) as [option_chain|]; [|done].
  destruct (calculate_straddle_premiums _ _ _) as [premiums|] eqn:Hcalc; simpl; [|done].
  intros Heq. injection Heq as <-. by exists option_chain, premiums.
Qed.

Lemma poll_entry_well_formed (p : poll) (e : Entry.t) :
  poll_entry p = Some e -> entry_well_formed e /\ Entry.timestamp e = clock p.
Proof.
  intros He. apply poll_entry_inv in He as (option_chain & premiums & _ & Hcalc & ->).
  apply calculate_straddle_premiums_inv in Hcalc as (first & rest & _ & Hsum & Hspot).
  unfold entry_well_formed. simpl. rewrite Hspot. eauto.
Qed.

Lemma clear_history_button_run w items pressed :
  history_is w items ->
  exists w', clear_history_button pressed w = (Ok (), w')
             /\ history_is w' (if pressed then [] else items)
             /\ last_update (session w') = last_update (session w)
             /\ (pressed = false -> w' = w).
Proof.
  intros Hw. destruct pressed; simpl.
  - eexists. split; [reflexivity|]. split; [|done].
    unfold history_is. simpl. apply lookup_insert_eq.
  - by exists w.
Qed.

Lemma update_history_run w items timestamp premiums :
  history_is w items ->
  exists w', update_history timestamp premiums w = (Ok (), w')
             /\ history_is w' (last_n 500 (items ++ [history_entry timestamp premiums]))
             /\ last_update (session w') = Some timestamp.
Proof.
  intros Hw. unfold history_is in Hw. unfold update_history.
  set (e := history_entry timestamp premiums).
  set (w1 := {| heap := <[premium_history (session w) := items ++ [e]]> (heap w);
                session := session w |}).
  assert (Hw1 : heap w1 !! premium_history (session w1) = Some (items ++ [e])).
  { simpl. apply lookup_insert_eq. }
  assert (Happend : obj_append (premium_history (session w)) e w = (Ok (), w1)).
  { unfold obj_append. by rewrite Hw. }
  unfold mbind at 1, script_bind at 1, get_premium_history at 1. cbn beta iota.
  rewrite (bind_ok _ _ _ _ _ Happend).
  unfold mbind at 1, script_bind at 1, get_premium_history at 1. cbn beta iota.
  rewrite (bind_ok _ _ _ _ _ (obj_len_bound _ _ _ Hw1)).
  unfold py_len. destruct (Z.ltb_spec 500 (Z.of_nat (length (items ++ [e])))) as [Hlt|Hge].
  - eexists. split.
    + unfold mbind at 1, script_bind at 1.
      rewrite (bind_ok _ _ _ _ _ (obj_slice_from_bound _ _ _ (-500) Hw1)).
      reflexivity.
    + split; [|done]. unfold history_is. simpl. rewrite lookup_insert_eq.
      change (-500)%Z with (- Z.of_nat 500)%Z.
      by rewrite py_slice_from_last_n by lia.
  - eexists. split; [reflexivity|]. split; [|done].
    unfold history_is. simpl. rewrite lookup_insert_eq.
    by rewrite last_n_all by lia.
Qed.

(** The two classifications in turn, on the session's history. *)
Lemma classify_run `{PyRuntime} w premiums :
  classify premiums w
  = (match (determine_trend (premium_history (session w)) 5 w).1 with
     | Ok trend =>
         match (determine_risk_status (premium_history (session w))
                  (Premiums.combined premiums) w).1 with
         | Ok risk => Ok (trend, risk)
         | Raise e => Raise e
         end
     | Raise e => Raise e
     end, w).
Proof.
  unfold classify.
  unfold mbind at 1, script_bind at 1, get_premium_history at 1. cbn beta iota.
  pose proof (determine_trend_readonly (premium_history (session w)) 5 w) as Ht.
  unfold mbind at 1, script_bind at 1.
  destruct (determine_trend _ 5 w) as [[trend|e] w1]; simpl in Ht; subst w1; [|done].
  cbn beta iota.
  unfold mbind at 1, script_bind at 1, get_premium_history at 1. cbn beta iota.
  pose proof (determine_risk_status_readonly (premium_history (session w))
                (Premiums.combined premiums) w) as Hr.
  unfold mbind at 1, script_bind at 1.
  by destruct (determine_risk_status _ _ w) as [[risk|e] w1]; simpl in Hr; subst w1.
Qed.

(** One run, whatever it is given: the world it leaves and what it shows. *)
Lemma main_run `{PyRuntime} w items p :
  history_is w items ->
  exists w0,
    history_is w0 (if clear_pressed p then [] else items)
    /\ last_update (session w0) = last_update (session w)
    /\ (clear_pressed p = false -> w0 = w)
    /\ match fetched_chain p with
       | Some ((_ :: _) as option_chain) =>
           match calculate_straddle_premiums option_chain STRIKE_1 STRIKE_2 with
           | Some premiums =>
               exists w1,
                 history_is w1
                   (last_n 500 ((if clear_pressed p then [] else items)
                                ++ [history_entry (clock p) premiums]))
                 /\ last_update (session w1) = Some (clock p)
                 /\ main (clear_pressed p) (fetched_chain p) (clock p) w
                    = ((fun labels => Dashboard premiums labels.1 labels.2)
                         <$> (classify premiums w1).1, w1)
           | None =>
               main (clear_pressed p) (fetched_chain p) (clock p) w
               = (Ok PremiumsError, w0)
           end
       | _ =>
           main (clear_pressed p) (fetched_chain p) (clock p) w = (Ok FetchError, w0)
       end.
Proof.
  intros Hw.
  destruct (clear_history_button_run w items (clear_pressed p) Hw)
    as (w0 & E0 & Hw0 & Hlast0 & Hsame).
  exists w0. do 3 (split; [done|]). unfold main.
  rewrite (bind_ok _ _ _ _ _ E0).
  destruct (fetched_chain p) as [[|option rest]|]; [done| |done].
  destruct (calculate_straddle_premiums (option :: rest) STRIKE_1 STRIKE_2)
    as [premiums|]; [|done].
  destruct (update_history_run w0 _ (clock p) premiums Hw0) as (w1 & E1 & Hw1 & Hlast1).
  exists w1. do 2 (split; [done|]).
  rewrite (bind_ok _ _ _ _ _ E1).
  pose proof (classify_readonly premiums w1) as Hc.
  unfold mbind, script_bind.
  by destruct (classify premiums w1) as [[labels|e] w2]; simpl in Hc; subst w2.
Qed.

(** ** Failures of a run *)





(** ** Invariants of a session *)

Lemma last_last_n_snoc {A : Type} (n : nat) (l : list A) (x : A) :
  1 <= n -> last (last_n n (l ++ [x])) = Some x.
Proof.
  intros Hn. unfold last_n. rewrite length_app. simpl.
  rewrite drop_app_le by lia. apply last_snoc.
Qed.

Lemma main_keeps_stamp `{PyRuntime} w items p :
  history_is w items ->
  stamp_matches_newest w ->
  stamp_matches_newest (main (clear_pressed p) (fetched_chain p) (clock p) w).2.
Proof.
  intros Hw Hstamp.
  destruct (main_run w items p Hw) as (w0 & Hw0 & Hlast0 & Hsame & Hrun).
  assert (Hstamp0 : stamp_matches_newest w0).
  { destruct (clear_pressed p).
    - unfold stamp_matches_newest. by rewrite (history_is_items _ _ Hw0).
    - by rewrite (Hsame eq_refl). }
  destruct (fetched_chain p) as [[|option rest]|];
    [by rewrite Hrun| |by rewrite Hrun].
  destruct (calculate_straddle_premiums (option :: rest) STRIKE_1 STRIKE_2)
    as [premiums|]; [|by rewrite Hrun].
  destruct Hrun as (w1 & Hw1 & Hlast1 & ->). cbn [snd].
  unfold stamp_matches_newest. rewrite (history_is_items _ _ Hw1).
  by rewrite last_last_n_snoc by lia.
Qed.

(** X12.  After any session the "Last updated" stamp is the timestamp of the
    newest entry of the history, whenever the history is not empty: a failed
    fetch, a missing leg, an exception or a press of "Clear History" never
    leaves the two apart. *)
Theorem last_update_matches_newest_entry `{PyRuntime} (polls : list poll) :
  stamp_matches_newest (run_session polls initial_world).2.
Proof.
  assert (Hgen : forall w items,
             history_is w items -> stamp_matches_newest w ->
             stamp_matches_newest (run_session polls w).2).
  { induction polls as [|p rest IH]; intros w items Hw Hstamp; [done|].
    rewrite run_session_cons.
    apply (IH _ _ (main_effect w items p Hw)). by apply main_keeps_stamp with items. }
  by apply Hgen with [].
Qed.

(** X13.  Every entry a session keeps in its history is a complete one: its
    combined premium is the float sum of its two straddle totals, and its
    spot price is there. *)
Theorem history_entries_well_formed `{PyRuntime} (polls : list poll) :
  Forall entry_well_formed (history_items (run_session polls initial_world).2).
Proof.
  assert (Hinit : history_is initial_world []) by reflexivity.
  pose proof (run_session_history polls initial_world [] Hinit ltac:(simpl; lia)) as Hrun.
  rewrite (history_is_items _ _ Hrun). unfold last_n. apply Forall_drop.
  apply Forall_app. split; [by destruct (existsb clear_pressed polls)|].
  apply Forall_forall. intros e He.
  apply list_elem_of_omap in He as (p & _ & Hp).
  by apply poll_entry_well_formed in Hp as [Hwf _].
Qed.

Lemma strongly_sorted_sublist {A : Type} (R : A -> A -> Prop) (l1 l2 : list A) :
  l1 `sublist_of` l2 -> StronglySorted R l2 -> StronglySorted R l1.
Proof.
  induction 1 as [|x l1 l2 Hsub IH|x l1 l2 Hsub IH]; intros Hsorted.
  - constructor.
  - apply StronglySorted_cons in Hsorted as [Hall Hrest].
    apply StronglySorted_cons. split; [|auto].
    apply Forall_forall. intros y Hy. rewrite Forall_forall in Hall.
    apply Hall. by apply (elem_of_sublist l1 l2).
  - apply StronglySorted_cons in Hsorted as [_ Hrest]. auto.
Qed.

Lemma poll_entry_timestamps polls :
  (Entry.timestamp <$> omap poll_entry polls) `sublist_of` (clock <$> polls).
Proof.
  induction polls as [|p rest IH]; simpl; [constructor|].
  destruct (poll_entry p) as [e|] eqn:He; simpl.
  - apply poll_entry_well_formed in He as [_ ->]. by constructor.
  - by constructor.
Qed.

Lemma since_last_clear_suffix polls :
  exists front, polls = front ++ since_last_clear polls.
Proof.
  induction polls as [|p rest [front IH]]; simpl; [by exists []|].
  destruct (existsb clear_pressed rest).
  - exists (p :: front). simpl. by rewrite <- IH.
  - by exists [].
Qed.

(** X14.  When the clock does not go back from one poll to the next, the
    timestamps of the history a session leaves do not go back either: the
    entries stay in the order they were taken. *)
Theorem history_timestamps_sorted `{PyRuntime} (polls : list poll) :
  StronglySorted Z.le (clock <$> polls) ->
  StronglySorted Z.le
    (Entry.timestamp <$> history_items (run_session polls initial_world).2).
Proof.
  intros Hsorted.
  assert (Hinit : history_is initial_world []) by reflexivity.
  pose proof (run_session_history polls initial_world [] Hinit ltac:(simpl; lia)) as Hrun.
  rewrite (history_is_items _ _ Hrun).
  replace ((if existsb clear_pressed polls then [] else [])
           ++ omap poll_entry (since_last_clear polls))
    with (omap poll_entry (since_last_clear polls))
    by (by destruct (existsb clear_pressed polls)).
  destruct (since_last_clear_suffix polls) as [front Hfront].
  rewrite Hfront, fmap_app in Hsorted. apply StronglySorted_app_1_r in Hsorted.
  apply (strongly_sorted_sublist _ _ _ (poll_entry_timestamps _)) in Hsorted.
  unfold last_n. rewrite fmap_drop.
  exact (strongly_sorted_sublist _ _ _ (sublist_drop _ _) Hsorted).
Qed.

Lemma history_timestamps_sorted_witness :
  StronglySorted Z.le (clock <$> falling_polls)
  /\ StronglySorted Z.le
       (Entry.timestamp
          <$> history_items (@run_session cpython_311 falling_polls initial_world).2).
Proof.
  assert (Hsorted : StronglySorted Z.le (clock <$> falling_polls)).
  { vm_compute. repeat (constructor; [|repeat (constructor; [discriminate|]); constructor]).
    constructor. }
  split; [exact Hsorted|].
  exact (@history_timestamps_sorted cpython_311 falling_polls Hsorted).
Defined.

(** ** What one run does to the history *)

(** X15.  Without a press of "Clear History" a run touches the history only
    at its ends: it leaves it as it is when it has nothing to append; below
    the cap it adds its entry at the tail and keeps every older entry in
    place; at the cap it adds its entry at the tail and drops exactly the
    oldest one. *)
Theorem run_appends_at_tail `{PyRuntime} (w : world) (items : list Entry.t) (p : poll) :
  history_is w items ->
  clear_pressed p = false ->
  length items <= 500 ->
  history_is (main (clear_pressed p) (fetched_chain p) (clock p) w).2
    (match poll_entry p with
     | None => items
     | Some entry =>
         if decide (length items < 500) then items ++ [entry]
         else drop 1 items ++ [entry]
     end).
Proof.
  intros Hw Hclear Hlen. pose proof (main_effect w items p Hw) as Hrun.
  unfold history_after in Hrun. rewrite Hclear in Hrun |- *. cbv zeta in Hrun.
  destruct (poll_entry p) as [entry|]; [|done].
  unfold last_n in Hrun. rewrite length_app in Hrun. simpl in Hrun.
  destruct (decide (length items < 500)).
  - by replace (length items + 1 - 500) with 0 in Hrun by lia.
  - replace (length items + 1 - 500) with 1 in Hrun by lia.
    by rewrite drop_app_le in Hrun by lia.
Qed.

Lemma run_appends_at_tail_witness :
  history_is (world_of [100; 90]%float) (entry_of <$> [100; 90]%float)
  /\ length (entry_of <$> [100; 90]%float) <= 500
  /\ Entry.combined
       <$> history_items
             (@main cpython_311 false (Some (snapshot 80)) 60%Z
                (world_of [100; 90]%float)).2
     = [100; 90; 80]%float.
Proof.
  split; [reflexivity|]. split; [vm_compute; lia|].
  assert (Hlen : length (entry_of <$> [100; 90]%float) <= 500) by (vm_compute; lia).
  exact (f_equal (fmap Entry.combined)
           (history_is_items _ _
              (@run_appends_at_tail cpython_311 (world_of [100; 90]%float)
                 (entry_of <$> [100; 90]%float)
                 {| clear_pressed := false; fetched_chain := Some (snapshot 80);
                    clock := 60%Z |}
                 eq_refl eq_refl Hlen))).
Defined.

(** X16.  A press of "Clear History" discards every older entry: after the
    run the history holds the entry of that run alone, or nothing when the
    run had nothing to append; in the latter case the last-update stamp is
    left as it was. *)
Theorem clear_history_discards `{PyRuntime} (w : world) (items : list Entry.t) (p : poll) :
  history_is w items ->
  clear_pressed p = true ->
  history_is (main (clear_pressed p) (fetched_chain p) (clock p) w).2
    (match poll_entry p with Some entry => [entry] | None => [] end)
  /\ (poll_entry p = None ->
      last_update (session (main (clear_pressed p) (fetched_chain p) (clock p) w).2)
      = last_update (session w)).
Proof.
  intros Hw Hclear. split.
  - pose proof (main_effect w items p Hw) as Hrun.
    unfold history_after in Hrun. rewrite Hclear in Hrun |- *. cbv zeta in Hrun.
    destruct (poll_entry p); [|done].
    by rewrite last_n_all in Hrun by (simpl; lia).
  - destruct (main_run w items p Hw) as (w0 & _ & Hlast0 & _ & Hrun).
    unfold poll_entry.
    destruct (fetched_chain p) as [[|option rest]|];
      [by rewrite Hrun| |by rewrite Hrun].
    destruct (calculate_straddle_premiums (option :: rest) STRIKE_1 STRIKE_2)
      as [premiums|]; [discriminate|by rewrite Hrun].
Qed.

Lemma clear_history_discards_witness :
  history_is (world_of [100; 90]%float) (entry_of <$> [100; 90]%float)
  /\ history_items
       (@main cpython_311 true None 60%Z (world_of [100; 90]%float)).2
     = [].
Proof.
  split; [reflexivity|].
  exact (history_is_items _ _
           (proj1 (@clear_history_discards cpython_311 (world_of [100; 90]%float)
                     (entry_of <$> [100; 90]%float)
                     {| clear_pressed := true; fetched_chain := None; clock := 60%Z |}
                     eq_refl eq_refl))).
Defined.

(** ** What one run shows *)




(** ** The classifications of a run *)

Lemma determine_risk_status_collecting `{PyRuntime} w history items current_premium :
  heap w !! history = Some items ->
  length items < 10 ->
  (determine_risk_status history current_premium w).1
  = Ok (Neutral, WhiteCircle, "Collecting initial data..."%string).
Proof.
  intros Hl Hlen. unfold determine_risk_status.
  rewrite (bind_ok _ _ _ _ _ (obj_len_bound _ _ _ Hl)).
  unfold py_len. destruct (Z.ltb_spec (Z.of_nat (length items)) 10); [done | lia].
Qed.

Lemma lookup_last_n_back {A : Type} (n k : nat) (l : list A) :
  1 <= k -> k <= n ->
  last_n n l !! (length (last_n n l) - k) = l !! (length l - k).
Proof.
  intros Hk Hn. unfold last_n. rewrite length_drop, lookup_drop.
  destruct (decide (k <= length l)) as [Hle|Hgt].
  - f_equal. lia.
  - replace (length l - n) with 0 by lia. f_equal. lia.
Qed.

(** One successful run from the kept history: the world it classifies in,
    and what it shows. *)
Lemma main_success `{PyRuntime} w items p option_chain premiums :
  history_is w items ->
  fetched_chain p = Some option_chain ->
  calculate_straddle_premiums option_chain STRIKE_1 STRIKE_2 = Some premiums ->
  exists w1,
    history_is w1
      (last_n 500 ((if clear_pressed p then [] else items)
                   ++ [history_entry (clock p) premiums]))
    /\ (main (clear_pressed p) (fetched_chain p) (clock p) w).1
       = match (determine_trend (premium_history (session w1)) 5 w1).1 with
         | Ok trend =>
             match (determine_risk_status (premium_history (session w1))
                      (Premiums.combined premiums) w1).1 with
             | Ok risk => Ok (Dashboard premiums trend risk)
             | Raise e => Raise e
             end
         | Raise e => Raise e
         end.
Proof.
  intros Hw Hfetch Hcalc.
  destruct (main_run w items p Hw) as (w0 & _ & _ & _ & Hrun).
  rewrite Hfetch in Hrun.
  destruct (calculate_straddle_premiums_inv _ _ _ _ Hcalc)
    as (first & rest & -> & _ & _).
  rewrite Hcalc in Hrun. destruct Hrun as (w1 & Hw1 & _ & Hrun).
  exists w1. split; [done|]. rewrite <- Hfetch in Hrun. rewrite Hrun.
  rewrite classify_run. cbn [fst].
  destruct (determine_trend _ 5 w1).1 as [trend|e]; [|done].
  by destruct (determine_risk_status _ _ w1).1 as [risk|e].
Qed.

(** X18.  The warm-up of a session.  A successful run that finds fewer than
    four entries to keep cannot fail: it shows "Insufficient Data" and
    "Collecting initial data...".  One that finds fewer than nine shows, if
    it shows the dashboard at all, "Collecting initial data..." as its risk
    status. *)
Theorem warm_up_runs `{PyRuntime} (w : world) (items : list Entry.t) (p : poll)
    (option_chain : list ticker) (premiums : Premiums.t) :
  history_is w items ->
  fetched_chain p = Some option_chain ->
  calculate_straddle_premiums option_chain STRIKE_1 STRIKE_2 = Some premiums ->
  (length (if clear_pressed p then [] else items) < 4 ->
   (main (clear_pressed p) (fetched_chain p) (clock p) w).1
   = Ok (Dashboard premiums InsufficientData
           (Neutral, WhiteCircle, "Collecting initial data..."%string)))
  /\ (length (if clear_pressed p then [] else items) < 9 ->
      forall shown trend risk,
        (main (clear_pressed p) (fetched_chain p) (clock p) w).1
        = Ok (Dashboard shown trend risk) ->
        risk = (Neutral, WhiteCircle, "Collecting initial data..."%string)).
Proof.
  intros Hw Hfetch Hcalc.
  destruct (main_success w items p option_chain premiums Hw Hfetch Hcalc)
    as (w1 & Hw1 & ->).
  set (kept := if clear_pressed p then [] else items) in *.
  assert (Hrisk : length kept < 9 ->
                  (determine_risk_status (premium_history (session w1))
                     (Premiums.combined premiums) w1).1
                  = Ok (Neutral, WhiteCircle, "Collecting initial data..."%string)).
  { intros Hlen. apply (determine_risk_status_collecting _ _ _ _ Hw1).
    pose proof (length_last_n_le 500 (kept ++ [history_entry (clock p) premiums])).
    rewrite last_n_all by (rewrite length_app; simpl; lia).
    rewrite length_app. simpl. lia. }
  split.
  - intros Hlen. rewrite Hrisk by lia.
    change 5%Z with (Z.of_nat 5).
    rewrite (determine_trend_refines w1 _ _ 5 Hw1) by lia.
    unfold trend_spec. rewrite length_fmap.
    rewrite last_n_all by (rewrite length_app; simpl; lia).
    rewrite length_app. simpl.
    by destruct (decide (length kept + 1 < 5)); [|lia].
  - intros Hlen shown trend risk. rewrite Hrisk by lia.
    destruct (determine_trend _ 5 w1).1 as [t|e]; [|discriminate].
    by intros [= _ _ <-].
Qed.

Lemma warm_up_runs_witness :
  history_is (world_of [100; 90; 80]%float) (entry_of <$> [100; 90; 80]%float)
  /\ length (entry_of <$> [100; 90; 80]%float) < 4
  /\ exists premiums,
       (@main cpython_311 false (Some (snapshot 70)) 60%Z
          (world_of [100; 90; 80]%float)).1
       = Ok (Dashboard premiums InsufficientData
               (Neutral, WhiteCircle, "Collecting initial data..."%string)).
Proof.
  split; [reflexivity|].
  assert (Hlen : length (entry_of <$> [100; 90; 80]%float) < 4) by (vm_compute; lia).
  split; [exact Hlen|].
  eexists.
  exact (proj1 (@warm_up_runs cpython_311 (world_of [100; 90; 80]%float)
                  (entry_of <$> [100; 90; 80]%float)
                  {| clear_pressed := false; fetched_chain := Some (snapshot 70);
                     clock := 60%Z |}
                  (snapshot 70) _ eq_refl eq_refl eq_refl) Hlen).
Defined.

(** X19.  In a run the history that the risk classifier reads already holds
    the entry of that run, so the premium it takes as "ten back" is the one
    that was appended nine runs earlier: the recent change of a run that
    shows the dashboard is the change of its own combined premium against
    the ninth from the end of the history it found. *)
Theorem risk_baseline_is_nine_runs_back `{PyRuntime} (w : world)
    (items : list Entry.t) (p : poll) (shown : Premiums.t) (trend : TrendLabel)
    (risk : RiskLabel * RiskIcon * string) :
  history_is w items ->
  clear_pressed p = false ->
  9 <= length items ->
  (main (clear_pressed p) (fetched_chain p) (clock p) w).1
  = Ok (Dashboard shown trend risk) ->
  exists old recent_change_pct volatility_pct,
    items !! (length items - 9) = Some old
    /\ pct_change (Premiums.combined shown) (Entry.combined old)
       = Some recent_change_pct
    /\ verdict risk
       = first_match (risk_rules recent_change_pct volatility_pct)
           (Safe, "Premium stable - Position behaving as expected"%string).
Proof.
  intros Hw Hclear Hlen Hshown.
  destruct (main_run w items p Hw) as (w0 & _ & _ & _ & Hrun).
  destruct (fetched_chain p) as [[|option rest]|] eqn:Hfetch;
    [rewrite Hrun in Hshown; discriminate Hshown| |
     rewrite Hrun in Hshown; discriminate Hshown].
  destruct (calculate_straddle_premiums (option :: rest) STRIKE_1 STRIKE_2)
    as [premiums|] eqn:Hcalc;
    [|rewrite Hrun in Hshown; discriminate Hshown].
  clear Hrun. rewrite <- Hfetch in Hshown.
  destruct (main_success w items p _ premiums Hw Hfetch Hcalc) as (w1 & Hw1 & Hmain).
  rewrite Hmain in Hshown. rewrite Hclear in Hw1. clear Hmain.
  destruct (determine_trend _ 5 w1).1 as [t|e]; [|discriminate Hshown].
  destruct (determine_risk_status_refines w1 _ _ (Premiums.combined premiums) Hw1)
    as [_ Hverdict].
  destruct (determine_risk_status _ _ w1).1 as [r|e]; [|discriminate Hshown].
  injection Hshown as <- <- <-. simpl in Hverdict.
  set (history := last_n 500 (items ++ [history_entry (clock p) premiums])) in *.
  assert (Hsize : 10 <= length history).
  { unfold history, last_n. rewrite length_drop, length_app. simpl. lia. }
  unfold risk_spec in Hverdict. rewrite length_fmap in Hverdict.
  destruct (decide (length history < 10)); [lia|].
  destruct (avg _) as [average|]; [|discriminate Hverdict].
  destruct (lowest _) as [lo|]; [|discriminate Hverdict].
  destruct (highest _) as [hi|]; [|discriminate Hverdict].
  cbn [mbind option_bind] in Hverdict.
  destruct (ratio (hi - lo) average) as [spread|]; [|discriminate Hverdict].
  cbn [mbind option_bind] in Hverdict.
  rewrite list_lookup_fmap in Hverdict.
  unfold history in Hverdict at 1 2.
  rewrite (lookup_last_n_back 500 10) in Hverdict by lia.
  rewrite length_app in Hverdict. simpl in Hverdict.
  rewrite lookup_app_l in Hverdict by lia.
  replace (length items + 1 - 10) with (length items - 9) in Hverdict by lia.
  destruct (items !! (length items - 9)) as [old|]; [|discriminate Hverdict].
  cbn [fmap option_fmap option_map mbind option_bind] in Hverdict.
  destruct (pct_change _ _) as [recent_change_pct|] eqn:Hchange;
    [|discriminate Hverdict].
  cbn [mbind option_bind outcome] in Hverdict.
  exists old, recent_change_pct, (spread * 100)%float.
  split; [done|]. split; [done|]. by injection Hverdict.
Qed.

Lemma risk_baseline_is_nine_runs_back_witness :
  history_is (world_of (replicate 9 100%float)) (entry_of <$> replicate 9 100%float)
  /\ 9 <= length (entry_of <$> replicate 9 100%float)
  /\ exists shown trend risk,
       (@main cpython_311 false (Some (snapshot 112)) 60%Z
          (world_of (replicate 9 100%float))).1
       = Ok (Dashboard shown trend risk)
       /\ verdict risk
          = (Risky, "Premium expanding - Volatility risk increasing"%string).
Proof.
  split; [reflexivity|].
  assert (Hlen : 9 <= length (entry_of <$> replicate 9 100%float))
    by (vm_compute; lia).
  split; [exact Hlen|].
  destruct (@main cpython_311 false (Some (snapshot 112)) 60%Z
              (world_of (replicate 9 100%float))).1
    as [[shown trend risk| |]|e] eqn:Hmain;
    [|vm_compute in Hmain; discriminate Hmain..].
  exists shown, trend, risk. split; [reflexivity|].
  destruct (@risk_baseline_is_nine_runs_back cpython_311
              (world_of (replicate 9 100%float))
              (entry_of <$> replicate 9 100%float)
              {| clear_pressed := false; fetched_chain := Some (snapshot 112);
                 clock := 60%Z |}
              shown trend risk eq_refl eq_refl Hlen Hmain)
    as (old & recent_change_pct & volatility_pct & Hold & Hchange & ->).
  injection Hold as <-.
  vm_compute in Hmain. injection Hmain as <- _ _.
  vm_compute in Hchange. injection Hchange as <-.
  reflexivity.
Defined.

(** ** The expiry date *)

Section calendar.
#[local] Open Scope Z_scope.
Import Calendar.

Lemma holds_from_spec P start count :
  holds_from P start count = true ->
  forall i, start <= i < start + Z.of_nat count -> P i = true.
Proof.
  revert start. induction count as [|count IH]; intros start Hall i Hi; [lia|].
  simpl in Hall. destruct (P start) eqn:Hstart; [|discriminate Hall].
  destruct (decide (i = start)) as [->|Hne]; [done|].
  apply (IH (start + 1) Hall). lia.
Qed.

(** Every day of one cycle of 400 years. *)
Lemma calendar_checked : holds_from calendar_check 0 (Z.to_nat DI400Y) = true.
Proof. vm_compute. reflexivity. Qed.

Lemma is_leap_cycle y q : is_leap (y + 400 * q) = is_leap y.
Proof.
  unfold is_leap.
  replace ((y + 400 * q) mod 4) with (y mod 4)
    by (replace (400 * q) with (100 * q * 4) by lia; by rewrite Z_mod_plus_full).
  replace ((y + 400 * q) mod 100) with (y mod 100)
    by (replace (400 * q) with (4 * q * 100) by lia; by rewrite Z_mod_plus_full).
  replace ((y + 400 * q) mod 400) with (y mod 400)
    by (replace (400 * q) with (q * 400) by lia; by rewrite Z_mod_plus_full).
  done.
Qed.

Lemma days_before_year_cycle y q :
  days_before_year (y + 400 * q) = days_before_year y + DI400Y * q.
Proof.
  unfold days_before_year, DI400Y. cbv zeta.
  replace ((y + 400 * q - 1) / 4) with ((y - 1) / 4 + 100 * q)
    by (replace (y + 400 * q - 1) with (y - 1 + 100 * q * 4) by lia;
        by rewrite Z.div_add).
  replace ((y + 400 * q - 1) / 100) with ((y - 1) / 100 + 4 * q)
    by (replace (y + 400 * q - 1) with (y - 1 + 4 * q * 100) by lia;
        by rewrite Z.div_add).
  replace ((y + 400 * q - 1) / 400) with ((y - 1) / 400 + q)
    by (replace (y + 400 * q - 1) with (y - 1 + q * 400) by lia;
        by rewrite Z.div_add).
  lia.
Qed.

Lemma ord2ymd_cycle n q :
  ord2ymd (n + DI400Y * q)
  = ((ord2ymd n).1.1 + 400 * q, (ord2ymd n).1.2, (ord2ymd n).2).
Proof.
  unfold ord2ymd. cbv zeta.
  replace (n + DI400Y * q - 1) with (n - 1 + q * DI400Y) by lia.
  rewrite Z.div_add, Z_mod_plus_full by done.
  destruct (_ || _); [simpl; f_equal; try lia; f_equal; lia|].
  destruct (_ <? _); simpl; f_equal; try lia; f_equal; lia.
Qed.

(** [ord2ymd] names every day by a month of the year and a day of that
    month, [ymd2ord] takes the name back to the ordinal, and the day lies in
    the year it is given. *)
Lemma ord2ymd_spec n :
  1 <= (ord2ymd n).1.2 <= 12
  /\ 1 <= (ord2ymd n).2 <= days_in_month (ord2ymd n).1.1 (ord2ymd n).1.2
  /\ ymd2ord (ord2ymd n).1.1 (ord2ymd n).1.2 (ord2ymd n).2 = n
  /\ days_before_year (ord2ymd n).1.1 < n <= days_before_year ((ord2ymd n).1.1 + 1).
Proof.
  set (r := (n - 1) mod DI400Y). set (q := (n - 1) / DI400Y).
  assert (Hn : n = r + 1 + DI400Y * q).
  { unfold r, q. pose proof (Z.div_mod (n - 1) DI400Y). unfold DI400Y in *. lia. }
  assert (Hr : 0 <= r < 0 + Z.of_nat (Z.to_nat DI400Y)).
  { unfold r. pose proof (Z.mod_pos_bound (n - 1) DI400Y). unfold DI400Y in *. lia. }
  pose proof (holds_from_spec _ _ _ calendar_checked r Hr) as Hcheck.
  pose proof (ord2ymd_cycle (r + 1) q) as Hcycle.
  rewrite <- Hn in Hcycle. rewrite Hcycle. cbn [fst snd]. clear Hcycle.
  unfold calendar_check in Hcheck.
  destruct (ord2ymd (r + 1)) as [[y m] d]. cbn [fst snd].
  rewrite !andb_true_iff in Hcheck.
  destruct Hcheck as [[[[[[Hm1 Hm2] Hd1] Hd2] Hord] Hlo] Hhi].
  apply Z.leb_le in Hm1, Hm2, Hd1, Hd2, Hhi. apply Z.eqb_eq in Hord.
  apply Z.ltb_lt in Hlo.
  assert (Hdim : days_in_month (y + 400 * q) m = days_in_month y m).
  { unfold days_in_month. by rewrite is_leap_cycle. }
  assert (Hback : ymd2ord (y + 400 * q) m d = ymd2ord y m d + DI400Y * q).
  { unfold ymd2ord, days_before_month.
    rewrite is_leap_cycle, days_before_year_cycle. lia. }
  replace (y + 400 * q + 1) with (y + 1 + 400 * q) by lia.
  rewrite Hdim, Hback, !days_before_year_cycle. lia.
Qed.

Lemma days_before_year_mono a b :
  a <= b -> days_before_year a <= days_before_year b.
Proof.
  intros Hab. unfold days_before_year. cbv zeta. Z.div_mod_to_equations. lia.
Qed.

Lemma year_in_range t :
  in_range t -> 1 <= year t <= 9999.
Proof.
  unfold in_range, year, MAXORDINAL. intros Ht.
  destruct (ord2ymd_spec (toordinal t)) as (_ & _ & _ & Hlo & Hhi).
  assert (Hord : 1 <= toordinal t <= 3652059) by (unfold toordinal; Z.div_mod_to_equations; lia).
  split.
  - destruct (decide (1 <= (ord2ymd (toordinal t)).1.1)); [done|].
    pose proof (days_before_year_mono ((ord2ymd (toordinal t)).1.1 + 1) 1
                  ltac:(lia)) as Hmono.
    change (days_before_year 1) with 0 in Hmono. lia.
  - destruct (decide ((ord2ymd (toordinal t)).1.1 <= 9999)); [done|].
    pose proof (days_before_year_mono 10000 (ord2ymd (toordinal t)).1.1
                  ltac:(lia)) as Hmono.
    change (days_before_year 10000) with 3652059 in Hmono. lia.
Qed.

Lemma year_four_digits t :
  year_1000 <= t -> 1000 <= year t.
Proof.
  unfold year_1000, year. change (days_before_year 1000) with 364877. intros Ht.
  destruct (ord2ymd_spec (toordinal t)) as (_ & _ & _ & _ & Hhi).
  assert (Hord : 364878 <= toordinal t) by (unfold toordinal; Z.div_mod_to_equations; lia).
  destruct (decide (1000 <= (ord2ymd (toordinal t)).1.1)); [done|].
  pose proof (days_before_year_mono ((ord2ymd (toordinal t)).1.1 + 1) 1000
                ltac:(lia)) as Hmono.
  change (days_before_year 1000) with 364877 in Hmono. lia.
Qed.

End calendar.

Section expiry.
#[local] Open Scope Z_scope.
Import Calendar.

Lemma toordinal_add_days t days : toordinal (t + 86400 * days) = toordinal t + days.
Proof.
  unfold toordinal. replace (t + 86400 * days) with (t + days * 86400) by lia.
  rewrite Z.div_add by done. lia.
Qed.

Lemma weekday_add_days t days :
  weekday (t + 86400 * days) = (weekday t + days) mod 7.
Proof.
  unfold weekday. rewrite toordinal_add_days.
  replace (toordinal t + days + 6) with (toordinal t + 6 + days) by lia.
  by rewrite Zplus_mod_idemp_l.
Qed.

Lemma three_pm_add_days t days : three_pm (t + 86400 * days) = three_pm t + 86400 * days.
Proof.
  unfold three_pm. replace (t + 86400 * days) with (t + days * 86400) by lia.
  rewrite Z.div_add by done. lia.
Qed.

Lemma three_pm_hour t : 15 <= hour t <-> three_pm t <= t.
Proof. unfold hour, three_pm. Z.div_mod_to_equations. lia. Qed.

Lemma weekday_range t : 0 <= weekday t < 7.
Proof. unfold weekday. apply Z.mod_pos_bound. lia. Qed.

(** The number of days the function adds: the first of the coming days, the
    present one included, that is a Friday with its 15:00 still ahead. *)
Lemma get_nearest_weekly_expiry_days now :
  exists days,
    0 <= days <= 7
    /\ get_nearest_weekly_expiry now = strftime_dmY <$> add_days now days
    /\ open_friday now (now + 86400 * days)
    /\ forall earlier,
         0 <= earlier < days -> ~ open_friday now (now + 86400 * earlier).
Proof.
  unfold get_nearest_weekly_expiry, open_friday. cbv zeta.
  pose proof (weekday_range now) as Hwd.
  pose proof (three_pm_hour now) as Hpm.
  pose proof (Z.mod_pos_bound (4 - weekday now) 7 ltac:(lia)) as Hdays.
  assert (Hfri : (weekday now + (4 - weekday now) mod 7) mod 7 = 4).
  { rewrite Zplus_mod_idemp_r. by replace (weekday now + (4 - weekday now)) with 4 by lia. }
  assert (Hearly : forall e, 0 <= e < 7 -> (weekday now + e) mod 7 = 4 ->
                             e = (4 - weekday now) mod 7).
  { intros e He. Z.div_mod_to_equations. lia. }
  assert (Hday : three_pm now - 54000 <= now < three_pm now + 32400)
    by (unfold three_pm; Z.div_mod_to_equations; lia).
  destruct (Z.eqb_spec ((4 - weekday now) mod 7) 0) as [Hzero|Hpos];
    [destruct (Z.leb_spec 15 (hour now)) as [Hlate|Hbefore]|]; cbn [andb].
  - exists 7. split; [lia|]. split; [by destruct (add_days now _)|]. rewrite Hzero in *.
    rewrite weekday_add_days, three_pm_add_days. split.
    + split; [|lia]. rewrite Z.add_0_r in Hfri.
      by rewrite <- Zplus_mod_idemp_l, Hfri.
    + intros e He. rewrite weekday_add_days, three_pm_add_days.
      intros [Hwe Hahead]. pose proof (Hearly e ltac:(lia) Hwe). lia.
  - exists 0. split; [lia|].
    split; [rewrite Hzero; cbn; by destruct (add_days now _)|].
    rewrite weekday_add_days, three_pm_add_days. rewrite Hzero in *.
    split; [split; [done|lia]|]. intros e He. lia.
  - destruct (Z.eqb_spec ((4 - weekday now) mod 7) 0) as [?|_]; [done|].
    exists ((4 - weekday now) mod 7). split; [lia|]. split; [by destruct (add_days now _)|].
    rewrite weekday_add_days, three_pm_add_days. split.
    + split; [done|]. unfold three_pm. Z.div_mod_to_equations. lia.
    + intros e He. rewrite weekday_add_days. intros [Hwe _].
      pose proof (Hearly e ltac:(lia) Hwe). lia.
Qed.

Lemma last_day_is_friday : (MAXORDINAL + 6) mod 7 = 4.
Proof. reflexivity. Qed.

(** Before 15:00 of the last day of the calendar the Friday is in range. *)
Lemma friday_in_range now days :
  0 <= now < last_three_pm ->
  0 <= days ->
  (forall earlier,
     0 <= earlier < days -> ~ open_friday now (now + 86400 * earlier)) ->
  0 < toordinal now + days <= MAXORDINAL.
Proof.
  intros Hnow Hdays Hfirst.
  assert (Hord : 1 <= toordinal now <= MAXORDINAL).
  { unfold toordinal, last_three_pm, MAXORDINAL in *. Z.div_mod_to_equations. lia. }
  split; [lia|].
  destruct (decide (toordinal now + days <= MAXORDINAL)) as [|Hover]; [done|].
  destruct (Hfirst (MAXORDINAL - toordinal now) ltac:(lia)).
  unfold open_friday, weekday. rewrite toordinal_add_days, three_pm_add_days.
  replace (toordinal now + (MAXORDINAL - toordinal now) + 6) with (MAXORDINAL + 6)
    by lia.
  split; [apply last_day_is_friday|].
  unfold three_pm, toordinal, last_three_pm, MAXORDINAL in *. lia.
Qed.

(** X20.  Up to 15:00 of the last day Python's calendar has, the function
    returns the date of the nearest Friday whose 15:00 is still ahead:
    today's on a Friday before 15:00, next week's on a Friday from 15:00
    on, and no Friday in between is passed over. *)
Theorem expiry_is_first_open_friday (now : datetime) :
  0 <= now < last_three_pm ->
  exists days,
    0 <= days <= 7
    /\ get_nearest_weekly_expiry now = Some (strftime_dmY (now + 86400 * days))
    /\ open_friday now (now + 86400 * days)
    /\ (forall earlier,
          0 <= earlier < days -> ~ open_friday now (now + 86400 * earlier))
    /\ (days = 0 <-> weekday now = 4 /\ hour now < 15)
    /\ (days = 7 <-> weekday now = 4 /\ 15 <= hour now).
Proof.
  intros Hnow.
  destruct (get_nearest_weekly_expiry_days now)
    as (days & Hdays & Hexpiry & Hopen & Hfirst).
  exists days. split; [done|]. split; [|split; [done|split; [done|]]].
  - rewrite Hexpiry. unfold add_days.
    by destruct (decide _) as [|Hout];
      [|destruct Hout; apply friday_in_range; [done|lia|done]].
  - pose proof (three_pm_hour now) as Hpm. pose proof (weekday_range now) as Hwd.
    destruct Hopen as [Hfriday Hahead].
    rewrite weekday_add_days in Hfriday. rewrite three_pm_add_days in Hahead.
    split; split.
    + intros ->. rewrite Z.add_0_r, Z.mod_small in Hfriday by done. lia.
    + intros [Htoday Hearly]. destruct (decide (days = 0)) as [|Hlater]; [done|].
      destruct (Hfirst 0 ltac:(lia)). unfold open_friday.
      rewrite Z.mul_0_r, Z.add_0_r. split; [done|lia].
    + intros ->. rewrite <- Zplus_mod_idemp_r in Hfriday.
      change (7 mod 7) with 0 in Hfriday.
      rewrite Z.add_0_r, Z.mod_small in Hfriday by done. split; [done|].
      destruct (decide (15 <= hour now)) as [|Hearly]; [done|].
      destruct (Hfirst 0 ltac:(lia)). unfold open_friday.
      rewrite Z.mul_0_r, Z.add_0_r. split; [done|lia].
    + intros [Htoday Hlate]. destruct (decide (days = 7)) as [|Hsooner]; [done|].
      rewrite Htoday in Hfriday.
      assert (days = 0) as -> by (Z.div_mod_to_equations; lia). lia.
Qed.

Lemma expiry_is_first_open_friday_witness :
  0 <= 63929286000 < last_three_pm
  /\ get_nearest_weekly_expiry 63929286000 = Some "06-11-2026"%string.
Proof.
  assert (Hnow : 0 <= 63929286000 < last_three_pm)
    by (unfold last_three_pm, MAXORDINAL; lia).
  split; [exact Hnow|].
  destruct (expiry_is_first_open_friday 63929286000 Hnow)
    as (days & Hdays & -> & [Hfriday _] & _).
  rewrite weekday_add_days in Hfriday.
  change (weekday 63929286000) with 1 in Hfriday.
  assert (days = 3) as -> by (Z.div_mod_to_equations; lia).
  reflexivity.
Defined.

(** X21.  The function fails, with Python's [OverflowError], only in the nine
    hours that the calendar has left after 15:00 of 31 December 9999, a
    Friday: there the Friday a week later has no date. *)
Theorem expiry_overflows_in_last_hours (now : datetime) :
  in_range now ->
  get_nearest_weekly_expiry now = None <-> last_three_pm <= now.
Proof.
  intros Hnow.
  destruct (get_nearest_weekly_expiry_days now)
    as (days & Hdays & Hexpiry & Hopen & Hfirst).
  rewrite Hexpiry. unfold add_days. split.
  - destruct (decide _) as [|Hout]; [discriminate|]. intros _.
    destruct (decide (last_three_pm <= now)) as [|Hbefore]; [done|].
    destruct Hout. apply friday_in_range; [unfold in_range in Hnow|..]; [lia|lia|done].
  - intros Hlast. destruct (decide _) as [Hin|]; [|done].
    destruct Hopen as [_ Hahead]. rewrite three_pm_add_days in Hahead.
    unfold in_range, three_pm, toordinal, last_three_pm, MAXORDINAL in *.
    Z.div_mod_to_equations. lia.
Qed.

Lemma expiry_overflows_in_last_hours_witness :
  in_range (last_three_pm + 60)
  /\ get_nearest_weekly_expiry (last_three_pm + 60) = None.
Proof.
  assert (Hnow : in_range (last_three_pm + 60))
    by (unfold in_range, last_three_pm, MAXORDINAL; lia).
  split; [exact Hnow|].
  apply (proj2 (expiry_overflows_in_last_hours (last_three_pm + 60) Hnow)). lia.
Defined.

Lemma digit_value_digit k : 0 <= k <= 9 -> digit_value (digit k) = Some k.
Proof.
  intros Hk.
  assert (k = 0 \/ k = 1 \/ k = 2 \/ k = 3 \/ k = 4
          \/ k = 5 \/ k = 6 \/ k = 7 \/ k = 8 \/ k = 9) as Hcases by lia.
  repeat (destruct Hcases as [->|Hcases]; [reflexivity|]). by subst k.
Qed.

Lemma number_two_digits n :
  0 <= n < 100 -> number [digit (n / 10 mod 10); digit (n mod 10)] = Some n.
Proof.
  intros Hn. unfold number. cbn [foldl mbind option_bind].
  rewrite !digit_value_digit by (Z.div_mod_to_equations; lia).
  cbn [mbind option_bind]. f_equal. Z.div_mod_to_equations. lia.
Qed.

Lemma number_four_digits n :
  0 <= n < 10000 ->
  number [digit (n / 10 / 10 / 10 mod 10); digit (n / 10 / 10 mod 10);
          digit (n / 10 mod 10); digit (n mod 10)] = Some n.
Proof.
  intros Hn. unfold number. cbn [foldl mbind option_bind].
  rewrite !digit_value_digit by (Z.div_mod_to_equations; lia).
  cbn [mbind option_bind]. f_equal. Z.div_mod_to_equations. lia.
Qed.

Lemma days_in_month_short y m : 1 <= m <= 12 -> days_in_month y m <= 31.
Proof.
  intros Hm. unfold days_in_month.
  destruct (_ && _); [lia|].
  assert (m = 1 \/ m = 2 \/ m = 3 \/ m = 4 \/ m = 5 \/ m = 6
          \/ m = 7 \/ m = 8 \/ m = 9 \/ m = 10 \/ m = 11 \/ m = 12) as Hcases by lia.
  repeat (destruct Hcases as [->|Hcases]; [by vm_compute|]). subst m. by vm_compute.
Qed.

(** From the year 1000 on a date is written with ten characters and reads
    back as the day it was written for. *)
Lemma read_strftime t :
  in_range t -> year_1000 <= t ->
  String.length (strftime_dmY t) = 10%nat
  /\ read_ordinal (strftime_dmY t) = Some (toordinal t).
Proof.
  intros Ht Hfour.
  pose proof (year_in_range t Ht) as Hyear.
  pose proof (year_four_digits t Hfour) as Hlong.
  destruct (ord2ymd_spec (toordinal t)) as (Hm & Hd & Hback & _).
  pose proof (days_in_month_short (year t) (month t) Hm) as Hshort.
  fold (year t) (month t) (day t) in *.
  unfold strftime_dmY, format_d, format_m, format_Y. cbv zeta.
  rewrite !(proj2 (Z.ltb_ge (year t) _)) by lia.
  cbv [digits String.append]. split; [reflexivity|].
  unfold read_ordinal, read_dmY.
  change (Ascii.eqb "-" "-") with true. cbn [andb].
  rewrite !number_two_digits, number_four_digits by lia.
  cbn [mbind option_bind]. by rewrite decide_True, Hback by done.
Qed.

(** X22.  From the year 1000 on the function keeps the promise of its
    docstring: the text it returns has the ten characters of [DD-MM-YYYY],
    and the date it spells is a Friday, today or one of the seven days
    after. *)
Theorem expiry_text_spells_a_friday (now : datetime) :
  year_1000 <= now < last_three_pm ->
  exists text ordinal,
    get_nearest_weekly_expiry now = Some text
    /\ String.length text = 10%nat
    /\ read_ordinal text = Some ordinal
    /\ (ordinal + 6) mod 7 = 4
    /\ toordinal now <= ordinal <= toordinal now + 7.
Proof.
  intros Hnow.
  assert (Hstart : 0 <= year_1000) by (by vm_compute).
  destruct (get_nearest_weekly_expiry_days now)
    as (days & Hdays & Hexpiry & [Hfriday _] & Hfirst).
  pose proof (friday_in_range now days ltac:(lia) ltac:(lia) Hfirst) as Hin.
  unfold add_days in Hexpiry. rewrite decide_True in Hexpiry by done.
  assert (Hrange : in_range (now + 86400 * days)).
  { pose proof (toordinal_add_days now days) as Hord.
    unfold in_range, toordinal in *. Z.div_mod_to_equations. lia. }
  destruct (read_strftime (now + 86400 * days) Hrange ltac:(lia)) as [Hlen Hread].
  exists (strftime_dmY (now + 86400 * days)), (toordinal (now + 86400 * days)).
  split; [done|]. split; [done|]. split; [done|]. split; [done|].
  rewrite toordinal_add_days. lia.
Qed.

Lemma expiry_text_spells_a_friday_witness :
  year_1000 <= 63929286000 < last_three_pm
  /\ exists text,
       get_nearest_weekly_expiry 63929286000 = Some text
       /\ String.length text = 10%nat.
Proof.
  assert (Hnow : year_1000 <= 63929286000 < last_three_pm)
    by (unfold year_1000, last_three_pm, MAXORDINAL;
        change (days_before_year 1000) with 364877; lia).
  split; [exact Hnow|].
  destruct (expiry_text_spells_a_friday 63929286000 Hnow)
    as (text & ordinal & Hexpiry & Hlen & _).
  by exists text.
Defined.

Lemma strftime_dmY_day t1 t2 :
  toordinal t1 = toordinal t2 -> strftime_dmY t1 = strftime_dmY t2.
Proof.
  intros Hsame.
  unfold strftime_dmY, format_d, format_m, format_Y, day, month, year.
  by rewrite Hsame.
Qed.

(** X23.  The function reads the clock only for the day and, on a Friday,
    for the side of 15:00: two instants of one day give the same expiry,
    unless the day is a Friday and 15:00 lies between them. *)
Theorem expiry_changes_only_at_three_pm (t1 t2 : datetime) :
  toordinal t1 = toordinal t2 ->
  (weekday t1 = 4 -> (15 <=? hour t1) = (15 <=? hour t2)) ->
  get_nearest_weekly_expiry t1 = get_nearest_weekly_expiry t2.
Proof.
  intros Hday Hside.
  assert (Hweekday : weekday t1 = weekday t2) by (unfold weekday; by rewrite Hday).
  unfold get_nearest_weekly_expiry. cbv zeta. rewrite <- Hweekday.
  destruct (Z.eqb_spec ((4 - weekday t1) mod 7) 0) as [Hzero|Hpos]; cbn [andb].
  - pose proof (weekday_range t1) as Hwd.
    rewrite <- Hside by (Z.div_mod_to_equations; lia).
    set (days := if 15 <=? hour t1 then 7 else (4 - weekday t1) mod 7).
    generalize (if days =? 0 then 0 else days). intros d.
    unfold add_days. rewrite <- Hday.
    destruct (decide _); [|done]. cbn [mbind option_bind]. f_equal.
    apply strftime_dmY_day. by rewrite !toordinal_add_days, Hday.
  - generalize (if (4 - weekday t1) mod 7 =? 0 then 0 else (4 - weekday t1) mod 7).
    intros d. unfold add_days. rewrite <- Hday.
    destruct (decide _); [|done]. cbn [mbind option_bind]. f_equal.
    apply strftime_dmY_day. by rewrite !toordinal_add_days, Hday.
Qed.

Lemma expiry_changes_only_at_three_pm_witness :
  toordinal 63929286000 = toordinal 63929300400
  /\ get_nearest_weekly_expiry 63929286000 = get_nearest_weekly_expiry 63929300400.
Proof.
  split; [reflexivity|].
  apply expiry_changes_only_at_three_pm; [reflexivity|].
  intros Hfriday. vm_compute in Hfriday. discriminate Hfriday.
Defined.

End expiry.
